(** * Trip routes of the travels backend: lifecycle, visibility and statistics

    A shallow embedding of [src/routes/trip.routes.js] (the router mounted
    under [/api/trips]) and the properties of its handlers.

    Conventions of the embedding.
    - A JavaScript object (request body, Mongoose document) is a finite map
      from property names to primitive values; a missing property reads as
      [undefined].
    - A number is an IEEE 754 double: the binary64 instance of the Standard
      Library's specification of floating-point arithmetic, with rounding to
      nearest, ties to even.
    - A string is its sequence of UTF-8 bytes.  An ObjectId is the string of
      its hexadecimal form, a [Date] the number of its time value.
    - A collection is the list of its documents in natural order, each paired
      with its [_id].  The ids of a request are well formed and the store
      answers every call, so the [catch] blocks are reached by the errors of
      [attachRefs] and of a duplicate [_id] only; schema casting and
      validation of [models/trips] (absent from the sources) are not
      represented. *)

From Stdlib Require Import ZArith String Ascii List Lia Permutation SpecFloat.
From stdpp Require Import base option gmap strings list pretty.

Open Scope Z_scope.

(** ** JavaScript primitives used by the handlers *)

Module JS.

(** Numbers are the binary64 values: 53 bits of precision, exponents up
    to 1024. *)
Definition prec : Z := 53.
Definition emax : Z := 1024.

Definition Num : Type := spec_float.

Definition NaN : Num := S754_nan.
Definition PInf : Num := S754_infinity false.
Definition NInf : Num := S754_infinity true.

(** The number of an integer: the integer itself when it is a double, the
    nearest double otherwise. *)
Definition ofZ (z : Z) : Num := binary_normalize prec emax z 0 false.

Definition isNaN (n : Num) : bool :=
  match n with S754_nan => true | _ => false end.

Definition is_zero (n : Num) : bool :=
  match n with S754_zero _ => true | _ => false end.

(** [a + b] on numbers. *)
Definition add (a b : Num) : Num := SFadd prec emax a b.

Definition neg (a : Num) : Num := SFopp a.

(** [a - b] on numbers. *)
Definition sub (a b : Num) : Num := SFsub prec emax a b.

Definition num_eqb (a b : Num) : bool :=
  match a, b with
  | S754_zero s, S754_zero t | S754_infinity s, S754_infinity t => Bool.eqb s t
  | S754_nan, S754_nan => true
  | S754_finite s m e, S754_finite t n f => Bool.eqb s t && Pos.eqb m n && Z.eqb e f
  | _, _ => false
  end.

(** Equal as numbers that are not NaN are for [===]: the same number, or
    two zeros, whatever their signs. *)
Definition same (a b : Num) : Prop :=
  a = b \/ (is_zero a = true /\ is_zero b = true).

(** The sign bit of a number: set for the negative numbers and for -0. *)
Definition sign (n : Num) : bool :=
  match n with
  | S754_zero s | S754_infinity s | S754_finite s _ _ => s
  | S754_nan => false
  end.

(** The integer a number is, when it is one. *)
Definition integer_value (n : Num) : option Z :=
  match n with
  | S754_zero _ => Some 0
  | S754_finite s m e =>
      let sign := if s then -1 else 1 in
      if 0 <=? e then Some (sign * (Zpos m * 2 ^ e))
      else if Zpos m mod 2 ^ (- e) =? 0 then Some (sign * (Zpos m / 2 ^ (- e)))
      else None
  | _ => None
  end.

(** The double nearest to [m * 10 ^ e], for [0 <= m], with the sign given:
    an integer is rounded as it is, a quotient by a power of ten as a
    division rounds it. *)
Definition of_decimal (negative : bool) (m e : Z) : Num :=
  if 0 <=? e then
    binary_normalize prec emax (cond_Zopp negative (m * 10 ^ e)) 0 negative
  else
    match m with
    | Z0 => S754_zero negative
    | _ =>
        let '(q, e', l) := SFdiv_core_binary prec emax m 0 (10 ^ (- e)) 0 in
        binary_round_aux prec emax negative q e' l
    end.

(** Primitive values. *)
Inductive value : Type :=
  | VUndef
  | VNull
  | VBool (b : bool)
  | VNum (n : Num)
  | VStr (s : string).

(** ToBoolean. *)
Definition truthy (v : value) : bool :=
  match v with
  | VUndef | VNull => false
  | VBool b => b
  | VNum n => negb (isNaN n || is_zero n)
  | VStr s => negb (String.eqb s "")
  end.

(** [a || b]. *)
Definition or (a b : value) : value := if truthy a then a else b.

(** *** Characters *)

Definition code (c : ascii) : Z := Z.of_N (N_of_ascii c).

Definition is_digit (c : ascii) : bool := (48 <=? code c) && (code c <=? 57).

Definition digit_val (c : ascii) : Z := code c - 48.

(** Value of a character as a digit of the given radix, if it is one. *)
Definition radix_digit (radix : Z) (c : ascii) : option Z :=
  let n := code c in
  let d := if (48 <=? n) && (n <=? 57) then n - 48
           else if (97 <=? n) && (n <=? 102) then n - 87
           else if (65 <=? n) && (n <=? 70) then n - 55
           else radix in
  if d <? radix then Some d else None.

(** Positional value of a sequence of decimal digits. *)
Definition dec_value (ds : list ascii) : Z :=
  fold_left (fun acc c => acc * 10 + digit_val c) ds 0.

Fixpoint radix_value (radix : Z) (acc : Z) (ds : list ascii) : option Z :=
  match ds with
  | [] => Some acc
  | c :: ds' =>
      match radix_digit radix c with
      | Some d => radix_value radix (acc * radix + d) ds'
      | None => None
      end
  end.

(** Longest prefix of decimal digits, and what follows it. *)
Fixpoint span_digits (s : list ascii) : list ascii * list ascii :=
  match s with
  | c :: s' =>
      if is_digit c then let '(ds, r) := span_digits s' in (c :: ds, r)
      else ([], s)
  | [] => ([], [])
  end.

(** *** White space of the StringNumericLiteral grammar, in UTF-8 *)

(** TAB, LF, VT, FF, CR and SP. *)
Definition ws1 (a : ascii) : bool :=
  let x := code a in ((9 <=? x) && (x <=? 13)) || (x =? 32).

(** U+00A0. *)
Definition ws2 (a b : ascii) : bool :=
  (code a =? 194) && (code b =? 160).

(** U+1680, U+2000 to U+200A, U+2028, U+2029, U+202F, U+205F, U+3000 and
    U+FEFF. *)
Definition ws3 (a b c : ascii) : bool :=
  let x := code a in let y := code b in let z := code c in
  ((x =? 225) && (y =? 154) && (z =? 128))
  || ((x =? 226) && (y =? 128)
      && (((128 <=? z) && (z <=? 138)) || (z =? 168) || (z =? 169) || (z =? 175)))
  || ((x =? 226) && (y =? 129) && (z =? 159))
  || ((x =? 227) && (y =? 128) && (z =? 128))
  || ((x =? 239) && (y =? 187) && (z =? 191)).

(** Drops the white space a byte sequence starts with; [back] reads the
    multi-byte characters in reverse, for a reversed sequence. *)
Fixpoint skip_ws (back : bool) (s : list ascii) : list ascii :=
  match s with
  | a :: r1 =>
      if ws1 a then skip_ws back r1
      else
        match r1 with
        | b :: r2 =>
            if (if back then ws2 b a else ws2 a b) then skip_ws back r2
            else
              match r2 with
              | c :: r3 =>
                  if (if back then ws3 c b a else ws3 a b c)
                  then skip_ws back r3 else s
              | [] => s
              end
        | [] => s
        end
  | [] => []
  end.

Definition trim (s : list ascii) : list ascii :=
  rev (skip_ws true (rev (skip_ws false s))).

(** *** StringToNumber *)

Definition chars (s : string) : list ascii := list_ascii_of_string s.

(** [0x], [0o] and [0b] literals: a prefix and at least one digit. *)
Definition parse_prefixed (t : list ascii) : option Z :=
  match t with
  | z :: p :: d :: ds =>
      if code z =? 48 then
        let x := code p in
        if (x =? 120) || (x =? 88) then radix_value 16 0 (d :: ds)
        else if (x =? 111) || (x =? 79) then radix_value 8 0 (d :: ds)
        else if (x =? 98) || (x =? 66) then radix_value 2 0 (d :: ds)
        else None
      else None
  | _ => None
  end.

(** An optional sign: its value and the rest. *)
Definition parse_sign (t : list ascii) : bool * list ascii :=
  match t with
  | c :: r =>
      if code c =? 45 then (true, r)
      else if code c =? 43 then (false, r)
      else (false, t)
  | [] => (false, [])
  end.

(** An optional exponent part: [None] when one starts and is malformed. *)
Definition parse_exponent (t : list ascii) : option (Z * list ascii) :=
  match t with
  | e :: r =>
      if (code e =? 101) || (code e =? 69) then
        let '(negative, r1) := parse_sign r in
        let '(ds, r2) := span_digits r1 in
        match ds with
        | [] => None
        | _ => Some (if negative then - dec_value ds else dec_value ds, r2)
        end
      else Some (0, t)
  | [] => Some (0, [])
  end.

(** A StrUnsignedDecimalLiteral other than [Infinity]: its digits and its
    power of ten. *)
Definition parse_unsigned (u : list ascii) : option (Z * Z) :=
  let '(ip, r1) := span_digits u in
  let '(fp, r2) :=
    match r1 with
    | c :: r => if code c =? 46 then span_digits r else ([], r1)
    | [] => ([], [])
    end in
  match ip, fp with
  | [], [] => None
  | _, _ =>
      match parse_exponent r2 with
      | Some (e, []) => Some (dec_value (ip ++ fp), e - Z.of_nat (length fp))
      | _ => None
      end
  end.

Definition parse_decimal (t : list ascii) : Num :=
  let '(negative, u) := parse_sign t in
  if bool_decide (u = chars "Infinity") then (if negative then NInf else PInf)
  else
    match parse_unsigned u with
    | Some (m, e) => of_decimal negative m e
    | None => NaN
    end.

(** [Number(s)] for a string [s]. *)
Definition StringToNumber (s : string) : Num :=
  let t := trim (chars s) in
  match t with
  | [] => ofZ 0
  | _ =>
      match parse_prefixed t with
      | Some z => ofZ z
      | None => parse_decimal t
      end
  end.

(** [Number(v)]. *)
Definition Number (v : value) : Num :=
  match v with
  | VUndef => NaN
  | VNull => ofZ 0
  | VBool b => if b then ofZ 1 else ofZ 0
  | VNum n => n
  | VStr s => StringToNumber s
  end.

(** *** Number::toString, radix 10 *)

(** [10 ^ n <= num / den]. *)
Definition ge_pow10 (num den n : Z) : bool :=
  if 0 <=? n then den * 10 ^ n <=? num else den <=? num * 10 ^ (- n).

(** The least [n] from a start below it with [num / den < 10 ^ n]. *)
Fixpoint magnitude10 (steps : nat) (num den n : Z) : Z :=
  match steps with
  | O => n
  | S steps' => if ge_pow10 num den n then magnitude10 steps' num den (n + 1) else n
  end.

(** The integer part of [(num / den) / 10 ^ p]. *)
Definition scaled_floor (num den p : Z) : Z :=
  if 0 <=? p then num / (den * 10 ^ p) else (num * 10 ^ (- p)) / den.

(** [num / den] against the middle of [s * 10 ^ p] and [(s + 1) * 10 ^ p]. *)
Definition against_middle (num den s p : Z) : comparison :=
  if 0 <=? p then 2 * num ?= (2 * s + 1) * 10 ^ p * den
  else 2 * num * 10 ^ (- p) ?= (2 * s + 1) * den.

(** The decimal [s * 10 ^ p] with the fewest digits, from [k] digits on,
    that converts to [x], the number [num / den] below [10 ^ n]; of two
    such decimals the nearer one, the even one when both are as near. *)
Fixpoint shortest (steps : nat) (x : Num) (num den n k : Z) : Z * Z :=
  let p := n - k in
  let lo := scaled_floor num den p in
  match steps with
  | O => (lo, p)
  | S steps' =>
      let below := num_eqb (of_decimal false lo p) x in
      let above := num_eqb (of_decimal false (lo + 1) p) x in
      if below && above then
        match against_middle num den lo p with
        | Lt => (lo, p)
        | Gt => (lo + 1, p)
        | Eq => (if Z.even lo then lo else lo + 1, p)
        end
      else if below then (lo, p)
      else if above then (lo + 1, p)
      else shortest steps' x num den n (k + 1)
  end.

Fixpoint strip_zeros_back (rs : list ascii) : list ascii :=
  match rs with
  | c :: rs' => if code c =? 48 then strip_zeros_back rs' else rs
  | [] => []
  end.

Definition zeros (n : Z) : list ascii := repeat "0"%char (Z.to_nat n).

Definition digits_of (z : Z) : list ascii := chars (pretty (Z.to_N z)).

Definition exponent_text (n : Z) : list ascii :=
  chars "e" ++ (if n - 1 <? 0 then chars "-" else chars "+")
  ++ digits_of (Z.abs (n - 1)).

(** Text of the positive finite number of mantissa [m] and exponent [e]. *)
Definition positive_text (m : positive) (e : Z) : list ascii :=
  let num := if 0 <=? e then Zpos m * 2 ^ e else Zpos m in
  let den := if 0 <=? e then 1 else 2 ^ (- e) in
  let bits := Z.log2 num - Z.log2 den in
  let n := magnitude10 8 num den ((bits - 1) * 30103 / 100000 - 1) in
  let '(s, p) := shortest 17 (S754_finite false m e) num den n 1 in
  let ds := digits_of s in
  let n := Z.of_nat (length ds) + p in
  let s := rev (strip_zeros_back (rev ds)) in
  let len := Z.of_nat (length s) in
  if (len <=? n) && (n <=? 21) then s ++ zeros (n - len)
  else if (0 <? n) && (n <=? 21) then
    take (Z.to_nat n) s ++ chars "." ++ drop (Z.to_nat n) s
  else if (-6 <? n) && (n <=? 0) then chars "0." ++ zeros (- n) ++ s
  else
    match s with
    | [d] => [d] ++ exponent_text n
    | d :: ds' => [d] ++ chars "." ++ ds' ++ exponent_text n
    | [] => []
    end.

Definition NumberToString (n : Num) : string :=
  match n with
  | S754_nan => "NaN"
  | S754_infinity false => "Infinity"
  | S754_infinity true => "-Infinity"
  | S754_zero _ => "0"
  | S754_finite false m e => string_of_list_ascii (positive_text m e)
  | S754_finite true m e => string_of_list_ascii (chars "-" ++ positive_text m e)
  end.

(** [String(v)]. *)
Definition String (v : value) : string :=
  match v with
  | VUndef => "undefined"
  | VNull => "null"
  | VBool b => if b then "true" else "false"
  | VNum n => NumberToString n
  | VStr s => s
  end.

(** *** The regular expression [/\d+/g] *)

(** All matches of [/\d+/g] from left to right: outside a match, [scan]
    looks for the next digit; inside one, [scan_run] extends the match while
    digits follow ([run] holds the match so far, last character first). *)
Fixpoint scan (s : list ascii) : list (list ascii) :=
  match s with
  | [] => []
  | c :: s' => if is_digit c then scan_run [c] s' else scan s'
  end
with scan_run (run : list ascii) (s : list ascii) : list (list ascii) :=
  match s with
  | [] => [rev run]
  | c :: s' =>
      if is_digit c then scan_run (c :: run) s' else rev run :: scan s'
  end.

(** [s.match(/\d+/g)]: the array of the matches, or [null] without one. *)
Definition match_digits (s : string) : option (list string) :=
  match scan (chars s) with
  | [] => None
  | ms => Some (map string_of_list_ascii ms)
  end.

End JS.


(** ** Documents, collections and requests *)

(** A JavaScript object with primitive properties. *)
Abbreviation Obj := (gmap string JS.value).

(** A stored document: its [_id] and its fields. *)
Abbreviation Doc := (string * Obj)%type.

(** A collection in natural order. *)
Abbreviation Coll := (list (string * gmap string JS.value)).

#[global] Instance Num_eq_dec : EqDecision JS.Num.
Proof. unfold JS.Num. solve_decision. Defined.

#[global] Instance value_eq_dec : EqDecision JS.value.
Proof. solve_decision. Defined.

(** [o.k]: a missing property reads as [undefined]. *)
Definition field (o : Obj) (k : string) : JS.value :=
  match o !! k with
  | Some v => v
  | None => JS.VUndef
  end.

(** [req.user], as the authentication middleware leaves it. *)
Record User : Type := { role : string; id : string }.

(** [req.query]. *)
Abbreviation Query := (gmap string string).

(** [Model.findById(i)]: the document, or [null]. *)
Fixpoint findById (c : Coll) (i : string) : option Obj :=
  match c with
  | [] => None
  | (j, d) :: c' => if String.eqb j i then Some d else findById c' i
  end.

(** [doc.save()] of a document loaded under [i]. *)
Fixpoint save (c : Coll) (i : string) (d : Obj) : Coll :=
  match c with
  | [] => []
  | (j, d0) :: c' =>
      if String.eqb j i then (j, d) :: c' else (j, d0) :: save c' i d
  end.

(** [Model.findByIdAndDelete(i)]. *)
Fixpoint findByIdAndDelete (c : Coll) (i : string) : Coll :=
  match c with
  | [] => []
  | (j, d0) :: c' =>
      if String.eqb j i then c' else (j, d0) :: findByIdAndDelete c' i
  end.

(** The outcome of code that may throw: a value, or the message of the
    error. *)
Inductive Result (A : Type) : Type :=
  | Ok (a : A)
  | Throw (message : string).
Arguments Ok {A} a.
Arguments Throw {A} message.

#[global] Instance Result_bind : MBind Result :=
  fun A B k r =>
    match r with
    | Ok a => k a
    | Throw m => Throw m
    end.

(** [doc.save()] of a new document: the [_id] index rejects a duplicate. *)
Definition save_new (c : Coll) (d : Doc) : Result Coll :=
  match findById c d.1 with
  | Some _ => Throw "E11000 duplicate key error"
  | None => Ok (c ++ [d])
  end.

(** The body of the answer of [GET /trips/stats]. *)
Record Stats : Type :=
  { totalTrips : Z;
    totalTripAmount : JS.Num;
    totalExpenses : JS.Num;
    totalMaintenance : JS.Num;
    totalAds : JS.Num;
    totalProfit : JS.Num }.

(** Responses: [res.status(s).json(body)]. *)
Inductive Body : Type :=
  | BMessage (message : string)
  | BTrip (trip : Doc)
  | BMessageTrip (message : string) (trip : Doc)
  | BRows (total page limit : Z) (rows : Coll)
  | BStats (stats : Stats).

Record Response : Type := { status : Z; body : Body }.

Definition respond (s : Z) (b : Body) : Response := {| status := s; body := b |}.

(** ** The reference resolver *)

Module Refs.

Record Driver : Type := { name : string; phone : string }.
Record Vehicle : Type := { type : string }.

(** Modelled from the spec: [utils/tripHelpers] ([attachRefs]) and the
    Driver and Vehicle models are absent from the sources.  Section 4.2:
    when the payload has a [driverId] the driver is fetched and its display
    and contact fields are copied under the snapshot names; a driver that is
    not found is an error; the same for [vehicleId], both being attempted.
    The messages of the two errors are not given by the spec. *)
Definition attachRefs (drivers : gmap string Driver) (vehicles : gmap string Vehicle)
    (payload : Obj) : Result Obj :=
  p1 ← (if JS.truthy (field payload "driverId") then
           match drivers !! JS.String (field payload "driverId") with
           | Some d =>
               Ok (<["driverNumber" := JS.VStr (phone d)]>
                     (<["driverName" := JS.VStr (name d)]> payload))
           | None => Throw "Driver not found"
           end
         else Ok payload);
  if JS.truthy (field payload "vehicleId") then
    match vehicles !! JS.String (field payload "vehicleId") with
    | Some v => Ok (<["vehicleType" := JS.VStr (type v)]> p1)
    | None => Throw "Vehicle not found"
    end
  else Ok p1.

End Refs.

(** Modelled from the spec: [models/trips] is absent from the sources.
    Section 3: a trip has a unique id and a creation timestamp, and
    [isDriverDeleted] defaults to false. *)
Definition new_Trip (newId : string) (now : Z) (data : Obj) : Doc :=
  (newId,
   data ∪ {[ "isDriverDeleted" := JS.VBool false;
             "createdAt" := JS.VNum (JS.ofZ now) ]}).

(** ** The statistics of [GET /trips/stats] *)

(** The fuel of one trip (lines 100 to 109).  The last branch stands for
    [.match] on a receiver that is not a string; [match_receiver_is_string]
    shows that no primitive value reaches it. *)
Definition fuelOf (trip : Obj) : JS.Num :=
  let fuelAmount := field trip "fuelAmount" in
  if JS.truthy fuelAmount then
    if negb (JS.isNaN (JS.Number fuelAmount)) then JS.Number fuelAmount
    else
      match fuelAmount with
      | JS.VStr s =>
          match JS.match_digits s with
          | Some matches =>
              fold_left (fun a b => JS.add a b)
                (map (fun m => JS.Number (JS.VStr m)) matches) (JS.ofZ 0)
          | None => JS.ofZ 0
          end
      | _ => JS.ofZ 0
      end
  else JS.ofZ 0.

(** [Number(v || 0)]. *)
Definition numberOr0 (v : JS.value) : JS.Num :=
  JS.Number (JS.or v (JS.VNum (JS.ofZ 0))).

Definition tripAmt (trip : Obj) : JS.Num := numberOr0 (field trip "tripAmount").

Definition expenses (trip : Obj) : JS.Num :=
  JS.add (JS.add (JS.add (fuelOf trip) (numberOr0 (field trip "tolls")))
            (numberOr0 (field trip "parkingCharges")))
    (numberOr0 (field trip "driverBeta")).

(** The running totals of the [forEach] loop: the variables
    [totalTripAmount], [totalExpenses] and [totalProfit]. *)
Record Totals : Type :=
  { totalTripAmount' : JS.Num; totalExpenses' : JS.Num; totalProfit' : JS.Num }.

Definition step (acc : Totals) (trip : Doc) : Totals :=
  let profit := JS.sub (tripAmt trip.2) (expenses trip.2) in
  {| totalTripAmount' := JS.add (totalTripAmount' acc) (tripAmt trip.2);
     totalExpenses' := JS.add (totalExpenses' acc) (expenses trip.2);
     totalProfit' := JS.add (totalProfit' acc) profit |}.

(** [docs.reduce((sum, d) => sum + Number(d.k || 0), 0)]. *)
Definition sumOf (k : string) (docs : Coll) : JS.Num :=
  fold_left (fun sum d => JS.add sum (numberOr0 (field d.2 k))) docs (JS.ofZ 0).

(** The aggregation of lines 92 to 137 over the documents found. *)
Definition computeStats (trips maintenances ads : Coll) : Stats :=
  let acc :=
    fold_left step trips
      {| totalTripAmount' := JS.ofZ 0; totalExpenses' := JS.ofZ 0;
         totalProfit' := JS.ofZ 0 |} in
  let totalMaintenance := sumOf "maintenanceCost" maintenances in
  let totalExpenses1 := JS.add (totalExpenses' acc) totalMaintenance in
  let totalAds := sumOf "amount" ads in
  let totalExpenses2 := JS.add totalExpenses1 totalAds in
  {| totalTrips := Z.of_nat (length trips);
     totalTripAmount := totalTripAmount' acc;
     totalExpenses := totalExpenses2;
     totalMaintenance := totalMaintenance;
     totalAds := totalAds;
     totalProfit := JS.sub (totalTripAmount' acc) totalExpenses2 |}.

(** The part of the trip expenses that is fuel. *)
Definition totalFuel (trips : Coll) : JS.Num :=
  fold_left (fun sum trip => JS.add sum (fuelOf trip.2)) trips (JS.ofZ 0).

(** ** The handlers *)

Definition is_role (user : User) (r : string) : bool := String.eqb (role user) r.

(** [String(trip.driverId) !== String(req.user.id)]. *)
Definition not_owner (trip : Obj) (user : User) : bool :=
  negb (String.eqb (JS.String (field trip "driverId")) (JS.String (JS.VStr (id user)))).

(** The filter [{ isDriverDeleted: { $ne: true } }], with
    [driverId: ObjectId(req.user.id)] added for a driver. *)
Definition trip_match (user : User) (d : Doc) : bool :=
  bool_decide (d.2 !! "isDriverDeleted" ≠ Some (JS.VBool true))
  && (if is_role user "driver"
      then bool_decide (d.2 !! "driverId" = Some (JS.VStr (id user)))
      else true).

(** The filter of the maintenance records: [{}], with
    [driver: ObjectId(req.user.id)] added for a driver. *)
Definition maintenance_match (user : User) (d : Doc) : bool :=
  if is_role user "driver"
  then bool_decide (d.2 !! "driver" = Some (JS.VStr (id user)))
  else true.

(** [req.query.k === 'true']. *)
Definition query_true (query : Query) (k : string) : bool :=
  bool_decide (query !! k = Some "true"%string).

Section Handlers.

(** [attachRefs] of [utils/tripHelpers], and the order [Query.sort] gives
    to the rows found. *)
Variable attachRefs : Obj -> Result Obj.
Variable sortRows : string -> Coll -> Coll.

(** [POST /trips], lines 12 to 45.  A second copy of the router follows the
    mounted one in the source file; there the driver branch ends with
    [delete data.driverName; delete data.driverNumber], here it does not. *)
Definition post_trips (trips : Coll) (user : User) (reqBody : Obj)
    (newId : string) (now : Z) : Response * Coll :=
  let attempt : Result (Response * Coll) :=
    let data := reqBody in
    let data := <["createdByRole" := JS.VStr (role user)]> data in
    let data := <["createdBy" := JS.VStr (id user)]> data in
    data ← (if is_role user "admin" then
               if JS.truthy (field data "driverId") || JS.truthy (field data "vehicleId")
               then attachRefs data
               else Ok data
             else Ok data);
    data ← (if is_role user "driver" then
               let data := <["driverId" := JS.VStr (id user)]> data in
               if JS.truthy (field data "vehicleId")
               then attachRefs (<["driverId" := field data "driverId"]> data)
               else Ok data
             else Ok data);
    let trip := new_Trip newId now data in
    trips' ← save_new trips trip;
    Ok (respond 201 (BTrip trip), trips') in
  match attempt with
  | Ok r => r
  | Throw m => (respond 400 (BMessage m), trips)
  end.

(** [GET /trips], lines 49 to 66. *)
Definition get_trips (trips : Coll) (user : User) (query : Query) : Response * Coll :=
  let sort :=
    match query !! "sort" with
    | Some s => if String.eqb s "" then "-createdAt"%string else s
    | None => "-createdAt"%string
    end in
  let rows := sortRows sort (List.filter (trip_match user) trips) in
  let total := Z.of_nat (length rows) in
  (respond 200 (BRows total 1 total rows), trips).

(** [GET /trips/stats], lines 70 to 143. *)
Definition get_stats (trips maintenances ads : Coll) (user : User) : Response * Coll :=
  let found := List.filter (trip_match user) trips in
  let maintenances := List.filter (maintenance_match user) maintenances in
  (respond 200 (BStats (computeStats found maintenances ads)), trips).

(** [GET /trips/:id], lines 147 to 163. *)
Definition get_trip (trips : Coll) (user : User) (tid : string) (query : Query)
    : Response * Coll :=
  match findById trips tid with
  | None => (respond 404 (BMessage "Trip not found"), trips)
  | Some trip =>
      if is_role user "driver" && not_owner trip user
      then (respond 403 (BMessage "Forbidden"), trips)
      else if is_role user "driver" && JS.truthy (field trip "isDriverDeleted")
              && negb (query_true query "includeDeleted")
      then (respond 404 (BMessage "Trip not found"), trips)
      else (respond 200 (BTrip (tid, trip)), trips)
  end.

(** The properties a driver may not set through an update. *)
Definition strip_for_driver (updates : Obj) : Obj :=
  delete "createdByRole"
    (delete "createdBy"
       (delete "driverDeletedBy"
          (delete "driverDeletedAt" (delete "isDriverDeleted" updates)))).

(** [PUT /trips/:id], lines 166 to 194. *)
Definition put_trip (trips : Coll) (user : User) (tid : string) (reqBody : Obj)
    : Response * Coll :=
  match findById trips tid with
  | None => (respond 404 (BMessage "Trip not found"), trips)
  | Some trip =>
      if is_role user "driver" && not_owner trip user
      then (respond 403 (BMessage "Forbidden"), trips)
      else
        let updates := reqBody in
        match (if JS.truthy (field updates "driverId")
                  || JS.truthy (field updates "vehicleId")
               then attachRefs updates else Ok updates) with
        | Throw m => (respond 400 (BMessage m), trips)
        | Ok updates =>
            let updates :=
              if is_role user "driver" then strip_for_driver updates else updates in
            let trip := updates ∪ trip in
            (respond 200 (BTrip (tid, trip)), save trips tid trip)
        end
  end.

(** [DELETE /trips/:id], lines 197 to 229. *)
Definition delete_trip (trips : Coll) (user : User) (tid : string) (query : Query)
    (now : Z) : Response * Coll :=
  match findById trips tid with
  | None => (respond 404 (BMessage "Trip not found"), trips)
  | Some trip =>
      if is_role user "driver" then
        if not_owner trip user then (respond 403 (BMessage "Forbidden"), trips)
        else if negb (JS.truthy (field trip "isDriverDeleted")) then
          let trip := <["isDriverDeleted" := JS.VBool true]> trip in
          let trip := <["driverDeletedAt" := JS.VNum (JS.ofZ now)]> trip in
          let trip := <["driverDeletedBy" := JS.VStr (id user)]> trip in
          (respond 200 (BMessageTrip "Trip marked deleted by driver" (tid, trip)),
           save trips tid trip)
        else
          (respond 200 (BMessageTrip "Trip marked deleted by driver" (tid, trip)),
           trips)
      else
        let hard := query_true query "hard" in
        if hard then
          (respond 200 (BMessage "Trip permanently deleted by admin"),
           findByIdAndDelete trips tid)
        else
          let trip :=
            if negb (JS.truthy (field trip "isDriverDeleted")) then
              <["driverDeletedAt" := JS.VNum (JS.ofZ now)]>
                (<["isDriverDeleted" := JS.VBool true]> trip)
            else trip in
          (respond 200 (BMessageTrip "Trip soft-deleted by admin" (tid, trip)),
           save trips tid trip)
  end.

(** [POST /trips/:id/restore], lines 233 to 247. *)
Definition restore_trip (trips : Coll) (user : User) (tid : string) : Response * Coll :=
  if negb (is_role user "admin") then (respond 403 (BMessage "Admins only"), trips)
  else
    match findById trips tid with
    | None => (respond 404 (BMessage "Trip not found"), trips)
    | Some trip =>
        let trip := <["isDriverDeleted" := JS.VBool false]> trip in
        let trip := <["driverDeletedAt" := JS.VNull]> trip in
        let trip := <["driverDeletedBy" := JS.VNull]> trip in
        (respond 200 (BMessageTrip "Trip restored" (tid, trip)), save trips tid trip)
    end.

End Handlers.

(** The rows of a listing. *)
Definition rows_of (b : Body) : Coll :=
  match b with
  | BRows _ _ _ rows => rows
  | _ => []
  end.

(** ** The fuel policy in the words of the specification *)

Module FuelPolicy.

(** The digits a text starts with. *)
Fixpoint leading_digits (s : list ascii) : list ascii :=
  match s with
  | c :: s' => if JS.is_digit c then c :: leading_digits s' else []
  | [] => []
  end.

(** The maximal runs of digits of a text, from left to right: a run begins
    at each digit that no digit precedes and extends over all the digits that
    follow.  [after_digit] tells whether a digit precedes the text. *)
Fixpoint maximal_runs (after_digit : bool) (s : list ascii) : list (list ascii) :=
  match s with
  | [] => []
  | c :: s' =>
      (if JS.is_digit c && negb after_digit then [leading_digits s] else [])
      ++ maximal_runs (JS.is_digit c) s'
  end.

(** A run of digits read as an integer in base ten. *)
Fixpoint integer_of (run : list ascii) : Z :=
  match run with
  | [] => 0
  | c :: run' => JS.digit_val c * 10 ^ Z.of_nat (length run') + integer_of run'
  end.

Definition sum (zs : list Z) : Z := fold_right Z.add 0 zs.

(** The maximal runs of digits of a text, each read as an integer. *)
Definition integers (s : string) : list Z :=
  map integer_of (maximal_runs false (JS.chars s)).

(** Section 4.4: fuel is 0 when [fuelAmount] is absent; the number it parses
    to when it parses as one; otherwise the sum of its maximal runs of
    digits, each read as an integer. *)
Definition fuel (fuelAmount : option JS.value) : JS.Num :=
  match fuelAmount with
  | None => JS.ofZ 0
  | Some v =>
      if JS.isNaN (JS.Number v) then
        match v with
        | JS.VStr s => JS.ofZ (sum (integers s))
        | _ => JS.ofZ 0
        end
      else JS.Number v
  end.

(** The sum of integers as the arithmetic of numbers gives it: from left to
    right, each integer and each partial sum rounded to the nearest
    double. *)
Definition rounded_sum (zs : list Z) : JS.Num :=
  fold_left (fun a z => JS.add a (JS.ofZ z)) zs (JS.ofZ 0).

(** The policy of section 4.4 with the sum taken in the arithmetic of
    numbers. *)
Definition fuel_rounded (fuelAmount : option JS.value) : JS.Num :=
  match fuelAmount with
  | None => JS.ofZ 0
  | Some v =>
      if JS.isNaN (JS.Number v) then
        match v with
        | JS.VStr s => rounded_sum (integers s)
        | _ => JS.ofZ 0
        end
      else JS.Number v
  end.

(** A text whose runs sum to at most [2 ^ 53] = 9007199254740992, the range
    in which every integer is a number. *)
Definition in_exact_range (fuelAmount : option JS.value) : Prop :=
  match fuelAmount with
  | Some (JS.VStr s) => sum (integers s) <= 2 ^ 53
  | _ => True
  end.

End FuelPolicy.

(** ** Concrete requests *)

Module Scenario.

Definition ravi : string := "64b7f0a1c2d3e4f5a6b7c801".
Definition kiran : string := "64b7f0a1c2d3e4f5a6b7c802".
Definition office : string := "64b7f0a1c2d3e4f5a6b7c8aa".
Definition suv : string := "64b7f0a1c2d3e4f5a6b7c9e1".
Definition trip1 : string := "64b7f0a1c2d3e4f5a6b7d001".
Definition trip2 : string := "64b7f0a1c2d3e4f5a6b7d002".
Definition trip3 : string := "64b7f0a1c2d3e4f5a6b7d003".

Definition driver_ravi : User := {| role := "driver"; id := ravi |}.
Definition admin : User := {| role := "admin"; id := office |}.

Definition drivers : gmap string Refs.Driver :=
  {[ ravi := {| Refs.name := "Ravi"; Refs.phone := "9000000001" |};
     kiran := {| Refs.name := "Kiran"; Refs.phone := "9000000002" |} ]}.

Definition vehicles : gmap string Refs.Vehicle :=
  {[ suv := {| Refs.type := "SUV" |} ]}.

Definition attachRefs : Obj -> Result Obj := Refs.attachRefs drivers vehicles.

(** A store that answers [sort] with the rows in natural order. *)
Definition naturalOrder (sort : string) (rows : Coll) : Coll := rows.

(** A trip of Kiran and a trip of Ravi. *)
Definition kirans_trip : Obj :=
  {[ "driverId" := JS.VStr kiran; "fromLocation" := JS.VStr "Guntur";
     "tripAmount" := JS.VNum (JS.ofZ 1200); "isDriverDeleted" := JS.VBool false ]}.

Definition ravis_trip : Obj :=
  {[ "driverId" := JS.VStr ravi; "fromLocation" := JS.VStr "Vijayawada";
     "tripAmount" := JS.VNum (JS.ofZ 800); "isDriverDeleted" := JS.VBool false ]}.

Definition trips : Coll := [(trip1, kirans_trip); (trip2, ravis_trip)].

(** Ravi's trip after a soft delete. *)
Definition ravis_deleted_trip : Obj :=
  <["driverDeletedBy" := JS.VStr ravi]>
    (<["driverDeletedAt" := JS.VNum (JS.ofZ 1700000000000)]>
       (<["isDriverDeleted" := JS.VBool true]> ravis_trip)).

Definition trips_after_delete : Coll := [(trip1, kirans_trip); (trip2, ravis_deleted_trip)].

Definition hard : Query := {[ "hard" := "true"%string ]}.

(** The two trips of the statistics scenario of section 8. *)
Definition stats_trips : Coll :=
  [ (trip1, {[ "tripAmount" := JS.VNum (JS.ofZ 1000); "fuelAmount" := JS.VStr "300";
               "tolls" := JS.VNum (JS.ofZ 0) ]});
    (trip2, {[ "tripAmount" := JS.VNum (JS.ofZ 2000); "fuelAmount" := JS.VStr "1 x 50";
               "tolls" := JS.VNum (JS.ofZ 20) ]}) ].

(** The trips of the fuel examples of section 8. *)
Definition trip_500 : Obj := {[ "fuelAmount" := JS.VStr "500" ]}.
Definition trip_note : Obj :=
  {[ "fuelAmount" := JS.VStr "2 liters @100 plus 50 toll note" ]}.
Definition trip_no_fuel : Obj := {[ "tripAmount" := JS.VNum (JS.ofZ 1000) ]}.

(** Fuel notes with a run of twenty digits, and with runs that sum to more
    than [2 ^ 53]. *)
Definition trip_long_run : Obj := {[ "fuelAmount" := JS.VStr "x 99999999999999999999" ]}.
Definition trip_large_runs : Obj := {[ "fuelAmount" := JS.VStr "9007199254740992 1 1" ]}.

(** A driver creates a trip and names a vehicle. *)
Definition create_body : Obj :=
  {[ "vehicleId" := JS.VStr suv; "fromLocation" := JS.VStr "Tenali" ]}.

(** A driver updates a trip and names another driver. *)
Definition reassign_body : Obj := {[ "driverId" := JS.VStr kiran ]}.

End Scenario.

Definition all_digits (ds : list ascii) : Prop := Forall (fun c => JS.is_digit c = true) ds.

(** What precedes a run is not a digit: the last character before it, or,
    at the start of the text, the character [after_digit] stands for. *)
Definition not_after_digit (after_digit : bool) (pre : list ascii) : Prop :=
  match last pre with
  | Some c => JS.is_digit c = false
  | None => after_digit = false
  end.

Definition not_before_digit (post : list ascii) : Prop :=
  match post with
  | c :: _ => JS.is_digit c = false
  | [] => True
  end.

(** ** The message link of [GET /trips/:id/whatsapp] *)

Module Whatsapp.

(** [s.replace(/\D/g, '')]: what is left of [s] are its digits. *)
Definition digits_only (s : string) : string :=
  string_of_list_ascii (List.filter JS.is_digit (JS.chars s)).

(** The characters [encodeURIComponent] leaves as they are: letters, digits
    and [- _ . ! ~ * ' ( )]. *)
Definition unreserved (c : ascii) : bool :=
  let n := JS.code c in
  ((65 <=? n) && (n <=? 90)) || ((97 <=? n) && (n <=? 122))
  || ((48 <=? n) && (n <=? 57))
  || (n =? 45) || (n =? 95) || (n =? 46) || (n =? 33) || (n =? 126)
  || (n =? 42) || (n =? 39) || (n =? 40) || (n =? 41).

Definition hex_digit (d : Z) : ascii :=
  ascii_of_N (Z.to_N (if d <? 10 then 48 + d else 55 + d)).

(** The escape of one byte: a percent sign and two upper-case hexadecimal
    digits. *)
Definition escape (c : ascii) : list ascii :=
  ["%"%char; hex_digit (JS.code c / 16); hex_digit (JS.code c mod 16)].

(** [encodeURIComponent(s)], on the UTF-8 bytes of [s]. *)
Definition encodeURIComponent (s : string) : string :=
  string_of_list_ascii
    (flat_map (fun c => if unreserved c then [c] else escape c) (JS.chars s)).

Definition nl : string := String (ascii_of_N 10) EmptyString.

Definition quote : string := String (ascii_of_N 34) EmptyString.

(** [${trip.k || '-'}]. *)
Definition shown (trip : Obj) (k : string) : string :=
  JS.String (JS.or (field trip k) (JS.VStr "-")).

(** The template of lines 267 to 281, each field printed as the primitive
    value the document holds. *)
Definition message (trip : Obj) : string :=
  nl +:+ "Trip details" +:+ nl
  +:+ "Pick-up Date: " +:+ shown trip "startDate" +:+ nl
  +:+ "From: " +:+ shown trip "fromLocation" +:+ nl
  +:+ "To: " +:+ shown trip "endLocation" +:+ nl
  +:+ "Cost: ₹" +:+ shown trip "tripAmount" +:+ nl
  +:+ "Passenger name: " +:+ shown trip "customerName" +:+ nl
  +:+ "Passenger number: " +:+ shown trip "customerNumber" +:+ nl
  +:+ "Driver name: " +:+ shown trip "driverName" +:+ nl
  +:+ "Phone number: " +:+ shown trip "driverNumber" +:+ nl
  +:+ "Vehicle: " +:+ shown trip "vehicleType" +:+ nl
  +:+ "Seating capacity: -" +:+ nl
  +:+ "Mode of Payment: " +:+ shown trip "paymentMode" +:+ nl
  +:+ "Booking Number: " +:+ shown trip "bookingId" +:+ nl
  +:+ "    ".

(** The answers of the handler; [ServerError] is the 500 of the [catch]
    block, whose error text is not represented. *)
Inductive Body : Type :=
  | Url (whatsappUrl : string)
  | Message (message : string)
  | ServerError.

Record Response : Type := { status : Z; body : Body }.

(** The phone of a number field: 400 when the field is falsy; [.replace] on
    a value that is not a string throws. *)
Definition phone_of (number : JS.value) (unavailable : string) : Response + string :=
  if negb (JS.truthy number) then inl {| status := 400; body := Message unavailable |}
  else
    match number with
    | JS.VStr s => inr (digits_only s)
    | _ => inl {| status := 500; body := ServerError |}
    end.

(** The handler of [GET /trips/:id/whatsapp], lines 249 to 293, as it runs
    once [authMiddleware] and [adminOnly] have let the request through. *)
Definition get_whatsapp (trips : Coll) (tid : string) (query : Query) : Response :=
  match findById trips tid with
  | None => {| status := 404; body := Message "Trip not found" |}
  | Some trip =>
      let sendTo := query !! "sendTo" in
      let phone :=
        if bool_decide (sendTo = Some "customer"%string) then
          phone_of (field trip "customerNumber") "Customer number not available"
        else if bool_decide (sendTo = Some "driver"%string) then
          phone_of (field trip "driverNumber") "Driver number not available"
        else
          inl {| status := 400;
                 body := Message ("sendTo must be " +:+ quote +:+ "customer" +:+ quote
                                  +:+ " or " +:+ quote +:+ "driver" +:+ quote) |} in
      match phone with
      | inl answer => answer
      | inr phone =>
          let encodedMessage := encodeURIComponent (message trip) in
          let waUrl := "https://wa.me/" +:+ phone +:+ "?text=" +:+ encodedMessage in
          {| status := 200; body := Url waUrl |}
      end
  end.


End Whatsapp.

(** ** The second copy of the router *)

(** The source file holds a second copy of the router after the first
    (lines 297 to 525).  Its handlers for one trip are those of the first
    copy; [POST /trips] and [GET /trips/stats] differ. *)
Module Copy2.

Section Handlers.

Variable attachRefs : Obj -> Result Obj.

(** [POST /trips], lines 308 to 347. *)
Definition post_trips (trips : Coll) (user : User) (reqBody : Obj)
    (newId : string) (now : Z) : Response * Coll :=
  let attempt : Result (Response * Coll) :=
    let data := reqBody in
    let data := <["createdByRole" := JS.VStr (role user)]> data in
    let data := <["createdBy" := JS.VStr (id user)]> data in
    data ← (if is_role user "admin" then
               if JS.truthy (field data "driverId") || JS.truthy (field data "vehicleId")
               then attachRefs data
               else Ok data
             else Ok data);
    data ← (if is_role user "driver" then
               let data := <["driverId" := JS.VStr (id user)]> data in
               if JS.truthy (field data "vehicleId") then
                 data ← attachRefs (<["driverId" := field data "driverId"]> data);
                 Ok (delete "driverNumber" (delete "driverName" data))
               else Ok data
             else Ok data);
    let trip := new_Trip newId now data in
    trips' ← save_new trips trip;
    Ok (respond 201 (BTrip trip), trips') in
  match attempt with
  | Ok r => r
  | Throw m => (respond 400 (BMessage m), trips)
  end.

End Handlers.

(** The body of the answer of [GET /trips/stats]. *)
Record Stats : Type :=
  { totalTrips : Z;
    totalTripAmount : JS.Num;
    totalExpenses : JS.Num;
    totalProfit : JS.Num }.

Definition step (acc : Stats) (trip : Doc) : Stats :=
  let profit := JS.sub (tripAmt trip.2) (expenses trip.2) in
  {| totalTrips := totalTrips acc;
     totalTripAmount := JS.add (totalTripAmount acc) (tripAmt trip.2);
     totalExpenses := JS.add (totalExpenses acc) (expenses trip.2);
     totalProfit := JS.add (totalProfit acc) profit |}.

(** [GET /trips/stats], lines 368 to 418: the status and the body. *)
Definition get_stats (trips : Coll) (user : User) : Z * Stats :=
  let found := List.filter (trip_match user) trips in
  (200,
   fold_left step found
     {| totalTrips := Z.of_nat (length found); totalTripAmount := JS.ofZ 0;
        totalExpenses := JS.ofZ 0; totalProfit := JS.ofZ 0 |}).

End Copy2.

(** * Properties *)

(** ** Numbers *)

Ltac num_eq := vm_compute; reflexivity.

Lemma of_decimal_integer (m : Z) : JS.of_decimal false m 0 = JS.ofZ m.
Proof.
  unfold JS.of_decimal, JS.ofZ. cbn [Z.leb Z.compare cond_Zopp].
  by rewrite Z.pow_0_r, Z.mul_1_r.
Qed.

(** *** Integers up to [2 ^ 53] are numbers, and their sums are exact *)

Lemma shiftl_succ (p : positive) (k : N) :
  Pos.shiftl p (N.succ k) = ((Pos.shiftl p k)~0)%positive.
Proof. destruct k as [|q]; [reflexivity|]. apply Pos.iter_succ. Qed.

Lemma shiftl_pos (p : positive) (k : N) : Zpos (Pos.shiftl p k) = Zpos p * 2 ^ Z.of_N k.
Proof.
  induction k as [|k IH] using N.peano_ind.
  - change (Pos.shiftl p 0) with p. change (Z.of_N 0) with 0. lia.
  - rewrite shiftl_succ, N2Z.inj_succ, Z.pow_succ_r by lia. lia.
Qed.

Lemma shiftl_shiftl (p : positive) (j k : N) :
  Pos.shiftl (Pos.shiftl p j) k = Pos.shiftl p (j + k).
Proof.
  apply Pos2Z.inj. rewrite !shiftl_pos, N2Z.inj_add, Z.pow_add_r by lia. ring.
Qed.

Lemma digits_shiftl (p : positive) (k : N) :
  Zpos (digits2_pos (Pos.shiftl p k)) = Zpos (digits2_pos p) + Z.of_N k.
Proof.
  induction k as [|k IH] using N.peano_ind.
  - change (Pos.shiftl p 0) with p. change (Z.of_N 0) with 0. lia.
  - rewrite shiftl_succ, N2Z.inj_succ. cbn [digits2_pos]. lia.
Qed.

Lemma digits_bounds (p : positive) :
  2 ^ (Zpos (digits2_pos p) - 1) <= Zpos p < 2 ^ Zpos (digits2_pos p).
Proof.
  induction p as [p IH|p IH|]; cbn [digits2_pos]; [| |vm_compute; split; [discriminate|reflexivity]].
  - rewrite Pos2Z.inj_succ, (Pos2Z.inj_xI p).
    replace (Z.succ (Zpos (digits2_pos p)) - 1) with (Z.succ (Zpos (digits2_pos p) - 1)) by lia.
    rewrite !Z.pow_succ_r by lia. lia.
  - rewrite Pos2Z.inj_succ, (Pos2Z.inj_xO p).
    replace (Z.succ (Zpos (digits2_pos p)) - 1) with (Z.succ (Zpos (digits2_pos p) - 1)) by lia.
    rewrite !Z.pow_succ_r by lia. lia.
Qed.

Lemma iter_pos_iter {A : Type} (f : A -> A) (p : positive) (x : A) :
  SpecFloat.iter_pos f p x = Pos.iter f x p.
Proof.
  revert x. induction p as [p IH|p IH|]; intros x; cbn [SpecFloat.iter_pos Pos.iter].
  - by rewrite !IH, !Pos.iter_swap.
  - by rewrite !IH.
  - reflexivity.
Qed.

Lemma shr_exact (M : positive) (p : positive) :
  SpecFloat.iter_pos shr_1 p {| shr_m := Zpos (Pos.iter xO M p); shr_r := false; shr_s := false |}
  = {| shr_m := Zpos M; shr_r := false; shr_s := false |}.
Proof.
  rewrite iter_pos_iter. induction p as [|p IH] using Pos.peano_ind.
  - reflexivity.
  - rewrite (Pos.iter_succ p _ xO), Pos.iter_succ, <- Pos.iter_swap. exact IH.
Qed.

(** A mantissa of 53 bits with trailing zeros is rounded to itself. *)
Lemma round_aux_exact (M : positive) (E : Z) (n : N) :
  Zpos (digits2_pos M) = 53 -> -1074 <= E <= 971 ->
  binary_round_aux JS.prec JS.emax false (Zpos (Pos.shiftl M n)) (E - Z.of_N n) loc_Exact
  = S754_finite false M E.
Proof.
  intros HM HE. unfold binary_round_aux, shr_fexp.
  cbn [Zdigits2 shr_record_of_loc]. rewrite digits_shiftl, HM.
  replace (fexp JS.prec JS.emax (53 + Z.of_N n + (E - Z.of_N n))) with E
    by (unfold fexp, emin, JS.prec, JS.emax; lia).
  replace (E - (E - Z.of_N n)) with (Z.of_N n) by lia.
  assert (Hshr : shr {| shr_m := Zpos (Pos.shiftl M n); shr_r := false; shr_s := false |}
                   (E - Z.of_N n) (Z.of_N n)
                 = ({| shr_m := Zpos M; shr_r := false; shr_s := false |}, E)).
  { destruct n as [|p]; cbn [shr Z.of_N].
    - change (Pos.shiftl M 0) with M. f_equal. lia.
    - change (Pos.shiftl M (Npos p)) with (Pos.iter xO M p).
      rewrite shr_exact. f_equal. lia. }
  rewrite Hshr. cbn [shr_m loc_of_shr_record round_nearest_even Zdigits2 shr_record_of_loc].
  rewrite HM.
  replace (fexp JS.prec JS.emax (53 + E) - E) with 0
    by (unfold fexp, emin, JS.prec, JS.emax; lia).
  cbn [shr shr_m].
  replace (E <=? JS.emax - JS.prec) with true
    by (symmetry; apply Z.leb_le; unfold JS.prec, JS.emax; lia).
  reflexivity.
Qed.

(** Every way of writing the value of a normal number rounds to it. *)
Lemma round_normal (M : positive) (E : Z) (m : positive) (e : Z) (n : N) :
  Zpos (digits2_pos M) = 53 -> -1074 <= E <= 971 ->
  (m = Pos.shiftl M n /\ e = E - Z.of_N n) \/ (M = Pos.shiftl m n /\ e = E + Z.of_N n) ->
  binary_round JS.prec JS.emax false m e = S754_finite false M E.
Proof.
  intros HM HE [[-> ->] | [HMm ->]]; unfold binary_round.
  - rewrite digits_shiftl, HM.
    replace (fexp JS.prec JS.emax (53 + Z.of_N n + (E - Z.of_N n))) with E
      by (unfold fexp, emin, JS.prec, JS.emax; lia).
    unfold shl_align. replace (E - (E - Z.of_N n)) with (Z.of_N n) by lia.
    destruct n as [|p]; cbn [Z.of_N]; by apply round_aux_exact.
  - assert (Hd : Zpos (digits2_pos m) + Z.of_N n = 53).
    { rewrite <- digits_shiftl, <- HMm. exact HM. }
    replace (fexp JS.prec JS.emax (Zpos (digits2_pos m) + (E + Z.of_N n))) with E
      by (unfold fexp, emin, JS.prec, JS.emax; lia).
    unfold shl_align. replace (E - (E + Z.of_N n)) with (- Z.of_N n) by lia.
    destruct n as [|p].
    + change (Pos.shiftl m 0) with m in HMm. subst m.
      change (- Z.of_N 0) with 0. cbv beta iota.
      replace (E + Z.of_N 0) with (E - Z.of_N 0) by (change (Z.of_N 0) with 0; lia).
      by apply (round_aux_exact M E 0).
    + change (- Z.of_N (Npos p)) with (Zneg p). cbv beta iota.
      change (Pos.shiftl m (Npos p)) with (Pos.iter xO m p) in HMm. subst M.
      pose proof (round_aux_exact (Pos.iter xO m p) E 0 HM HE) as Hr.
      change (Z.of_N 0) with 0 in Hr. rewrite Z.sub_0_r in Hr. exact Hr.
Qed.

(** The number of a positive integer below [2 ^ 53]: the integer shifted to
    53 bits. *)
Lemma ofZ_small (a : positive) :
  Zpos a < 2 ^ 53 ->
  exists j : N,
    Zpos (digits2_pos (Pos.shiftl a j)) = 53
    /\ forall k : N,
         binary_round JS.prec JS.emax false (Pos.shiftl a k) (- Z.of_N k)
         = S754_finite false (Pos.shiftl a j) (- Z.of_N j).
Proof.
  intros Ha. pose proof (digits_bounds a) as [Hlo _].
  assert (Hd : Zpos (digits2_pos a) <= 53).
  { destruct (Z.le_gt_cases (Zpos (digits2_pos a)) 53) as [|Hgt]; [done|].
    assert (2 ^ 53 <= 2 ^ (Zpos (digits2_pos a) - 1)) by (apply Z.pow_le_mono_r; lia). lia. }
  exists (Z.to_N (53 - Zpos (digits2_pos a))).
  split; [rewrite digits_shiftl; lia|].
  intros k. set (j := Z.to_N (53 - Zpos (digits2_pos a))).
  assert (Hj : Z.of_N j = 53 - Zpos (digits2_pos a)) by (unfold j; lia).
  destruct (N.le_gt_cases j k) as [Hjk|Hjk].
  - apply (round_normal _ _ _ _ (k - j)); [rewrite digits_shiftl; lia | lia |].
    left. split; [rewrite shiftl_shiftl; f_equal; lia | lia].
  - apply (round_normal _ _ _ _ (j - k)); [rewrite digits_shiftl; lia | lia |].
    right. split; [rewrite shiftl_shiftl; f_equal; lia | lia].
Qed.

Lemma ofZ_2_53 (k : N) :
  binary_round JS.prec JS.emax false (Pos.shiftl (2 ^ 53) k) (- Z.of_N k)
  = S754_finite false (2 ^ 52) 1.
Proof.
  apply (round_normal _ _ _ _ (k + 1)); [reflexivity | lia |].
  left. split; [|lia].
  apply Pos2Z.inj. rewrite !shiftl_pos, N2Z.inj_add, Z.pow_add_r by lia.
  change (Z.of_N 1) with 1. change (Zpos (2 ^ 53)) with (Zpos (2 ^ 52) * 2 ^ 1). ring.
Qed.

(** An integer written with trailing zero bits and the matching negative
    exponent is the number of the integer. *)
Lemma round_shifted (a : positive) (k : N) :
  Zpos a <= 2 ^ 53 ->
  binary_round JS.prec JS.emax false (Pos.shiftl a k) (- Z.of_N k) = JS.ofZ (Zpos a).
Proof.
  intros Ha. unfold JS.ofZ. cbn [binary_normalize].
  destruct (Z.eq_dec (Zpos a) (2 ^ 53)) as [Heq|Hne].
  - assert (a = (2 ^ 53)%positive) as -> by (apply Pos2Z.inj; exact Heq).
    rewrite ofZ_2_53. symmetry. exact (ofZ_2_53 0).
  - destruct (ofZ_small a) as (j & _ & Hj); [lia|].
    rewrite Hj. symmetry. exact (Hj 0%N).
Qed.

Lemma integer_value_ofZ (z : Z) : 0 <= z <= 2 ^ 53 -> JS.integer_value (JS.ofZ z) = Some z.
Proof.
  intros Hz. destruct z as [|a|a]; [reflexivity| |lia].
  destruct (Z.eq_dec (Zpos a) (2 ^ 53)) as [Heq|Hne].
  - rewrite Heq. reflexivity.
  - destruct (ofZ_small a) as (j & _ & Hj); [lia|].
    rewrite (Hj 0%N : JS.ofZ (Zpos a) = _).
    unfold JS.integer_value. rewrite shiftl_pos.
    destruct j as [|p].
    + change (Z.of_N 0) with 0. change (0 <=? - 0) with true. cbv beta iota.
      rewrite Z.pow_0_r. f_equal; lia.
    + change (0 <=? - Z.of_N (Npos p)) with false. cbv beta iota.
      rewrite Z.opp_involutive.
      rewrite Z.mod_mul, Z.div_mul by (apply Z.pow_nonzero; lia).
      change (0 =? 0) with true. cbv beta iota. f_equal; lia.
Qed.

Lemma ofZ_nonneg_form (z : Z) :
  0 <= z <= 2 ^ 53 -> JS.ofZ z = S754_zero false \/ exists m e, JS.ofZ z = S754_finite false m e.
Proof.
  intros Hz. destruct z as [|a|a]; [by left| |lia]. right.
  destruct (Z.eq_dec (Zpos a) (2 ^ 53)) as [Heq|Hne].
  - rewrite Heq. by eexists _, _.
  - destruct (ofZ_small a) as (j & _ & Hj); [lia|].
    eexists _, _. exact (Hj 0%N).
Qed.

(** The sum of two integers is exact up to [2 ^ 53]. *)
Lemma add_ofZ (a b : Z) :
  0 <= a -> 0 <= b -> a + b <= 2 ^ 53 -> JS.add (JS.ofZ a) (JS.ofZ b) = JS.ofZ (a + b).
Proof.
  intros Ha Hb Hab.
  destruct a as [|a|a]; [|destruct b as [|b|b]|]; try lia.
  - rewrite Z.add_0_l. destruct (ofZ_nonneg_form b) as [->|(m & e & ->)]; [lia|reflexivity..].
  - rewrite Z.add_0_r. destruct (ofZ_nonneg_form (Zpos a)) as [->|(m & e & ->)]; [lia|reflexivity..].
  - destruct (ofZ_small a) as (ja & _ & Hja); [lia|].
    destruct (ofZ_small b) as (jb & _ & Hjb); [lia|].
    change (Zpos a + Zpos b) with (Zpos (a + b)).
    rewrite <- (round_shifted (a + b) (N.max ja jb)) by lia.
    rewrite (Hja 0%N : JS.ofZ (Zpos a) = _), (Hjb 0%N : JS.ofZ (Zpos b) = _).
    unfold JS.add, SFadd.
    assert (Hal : forall j : N, (j <= N.max ja jb)%N -> forall c : positive,
               fst (shl_align (Pos.shiftl c j) (- Z.of_N j)
                      (Z.min (- Z.of_N ja) (- Z.of_N jb)))
               = Pos.shiftl c (N.max ja jb)).
    { intros j Hj c. unfold shl_align.
      replace (Z.min (- Z.of_N ja) (- Z.of_N jb)) with (- Z.of_N (N.max ja jb)) by lia.
      destruct (- Z.of_N (N.max ja jb) - - Z.of_N j) as [|d|d] eqn:Hd; cbn [fst]; [|lia|].
      - f_equal. lia.
      - change (Pos.iter xO (Pos.shiftl c j) d) with (Pos.shiftl (Pos.shiftl c j) (Npos d)).
        rewrite shiftl_shiftl. f_equal. lia. }
    rewrite !Hal by lia. cbn [cond_Zopp].
    replace (Z.min (- Z.of_N ja) (- Z.of_N jb)) with (- Z.of_N (N.max ja jb)) by lia.
    replace (Zpos (Pos.shiftl a (N.max ja jb)) + Zpos (Pos.shiftl b (N.max ja jb)))
      with (Zpos (Pos.shiftl (a + b) (N.max ja jb)))
      by (rewrite !shiftl_pos, Pos2Z.inj_add; ring).
    reflexivity.
Qed.

(** ** Digits *)

Lemma is_digit_code (c : ascii) : JS.is_digit c = true <-> 48 <= JS.code c <= 57.
Proof. unfold JS.is_digit. rewrite andb_true_iff, !Z.leb_le. tauto. Qed.

Lemma span_digits_all (ds : list ascii) : all_digits ds -> JS.span_digits ds = (ds, []).
Proof.
  induction 1 as [|c ds Hc _ IH]; simpl; [reflexivity|].
  rewrite Hc, IH. reflexivity.
Qed.

Lemma dec_value_fold (ds : list ascii) (acc : Z) :
  fold_left (fun a c => a * 10 + JS.digit_val c) ds acc
  = acc * 10 ^ Z.of_nat (length ds) + FuelPolicy.integer_of ds.
Proof.
  revert acc. induction ds as [|c ds IH]; intros acc.
  - simpl. lia.
  - cbn [fold_left FuelPolicy.integer_of length]. rewrite IH.
    rewrite Nat2Z.inj_succ, Z.pow_succ_r by lia. ring.
Qed.

Lemma dec_value_integer_of (ds : list ascii) : JS.dec_value ds = FuelPolicy.integer_of ds.
Proof. unfold JS.dec_value. rewrite dec_value_fold. lia. Qed.

Lemma digit_not_ws (back : bool) (c : ascii) (s : list ascii) :
  JS.is_digit c = true -> JS.skip_ws back (c :: s) = c :: s.
Proof.
  intros Hc%is_digit_code.
  assert (H1 : JS.ws1 c = false).
  { unfold JS.ws1. cbv zeta. apply orb_false_iff. split.
    - apply andb_false_iff. right. apply Z.leb_gt. lia.
    - apply Z.eqb_neq. lia. }
  assert (H2 : forall b, JS.ws2 c b = false).
  { intros b. unfold JS.ws2. apply andb_false_iff. left. apply Z.eqb_neq. lia. }
  assert (H2' : forall b, JS.ws2 b c = false).
  { intros b. unfold JS.ws2. apply andb_false_iff. right. apply Z.eqb_neq. lia. }
  assert (Hne : forall n, 57 < n -> (JS.code c =? n) = false).
  { intros n Hn. apply Z.eqb_neq. lia. }
  assert (H3 : forall a b, JS.ws3 c a b = false).
  { intros a b. unfold JS.ws3. cbv zeta. rewrite !Hne by lia. reflexivity. }
  assert (H3' : forall a b, JS.ws3 a b c = false).
  { intros a b. unfold JS.ws3. cbv zeta. rewrite !Hne by lia.
    assert (Hge : (128 <=? JS.code c) = false) by (apply Z.leb_gt; lia).
    rewrite Hge. rewrite !andb_false_r. reflexivity. }
  simpl. rewrite H1. destruct s as [|b [|d s]]; [reflexivity| |].
  - destruct back; [rewrite H2'|rewrite H2]; reflexivity.
  - destruct back; [rewrite H2', H3'|rewrite H2, H3]; reflexivity.
Qed.

Lemma trim_digits (ds : list ascii) : all_digits ds -> JS.trim ds = ds.
Proof.
  intros Hds. unfold JS.trim.
  assert (Hskip : forall back l, all_digits l -> JS.skip_ws back l = l).
  { intros back l Hl. destruct Hl; [reflexivity|]. by apply digit_not_ws. }
  rewrite (Hskip false) by done.
  rewrite (Hskip true), rev_involutive; [done|].
  unfold all_digits. apply Forall_rev. exact Hds.
Qed.

Lemma parse_prefixed_digits (ds : list ascii) : all_digits ds -> JS.parse_prefixed ds = None.
Proof.
  intros Hds. destruct ds as [|z [|p [|d ds]]]; try reflexivity.
  simpl. destruct (JS.code z =? 48); [|reflexivity].
  apply Forall_cons in Hds as [_ [Hp%is_digit_code _]%Forall_cons].
  assert (Hne : forall n, 57 < n -> (JS.code p =? n) = false).
  { intros n Hn. apply Z.eqb_neq. lia. }
  rewrite !Hne by lia. reflexivity.
Qed.

Lemma parse_decimal_digits (c : ascii) (ds : list ascii) :
  all_digits (c :: ds) -> JS.parse_decimal (c :: ds) = JS.ofZ (JS.dec_value (c :: ds)).
Proof.
  intros Hds. pose proof Hds as [Hc%is_digit_code _]%Forall_cons.
  unfold JS.parse_decimal, JS.parse_sign.
  assert (H45 : (JS.code c =? 45) = false) by (apply Z.eqb_neq; lia).
  assert (H43 : (JS.code c =? 43) = false) by (apply Z.eqb_neq; lia).
  rewrite H45, H43.
  rewrite bool_decide_eq_false_2.
  2:{ intros Heq. injection Heq as Heq _. subst c. vm_compute in Hc. destruct Hc as [_ Hc]. by apply Hc. }
  unfold JS.parse_unsigned. rewrite span_digits_all by done.
  cbn [JS.parse_exponent length]. rewrite app_nil_r.
  apply of_decimal_integer.
Qed.

Lemma Number_digits (ds : list ascii) :
  ds <> [] -> all_digits ds ->
  JS.Number (JS.VStr (string_of_list_ascii ds)) = JS.ofZ (FuelPolicy.integer_of ds).
Proof.
  intros Hne Hds. cbn [JS.Number]. unfold JS.StringToNumber, JS.chars.
  rewrite list_ascii_of_string_of_list_ascii, trim_digits by done.
  destruct ds as [|c ds]; [done|].
  rewrite parse_prefixed_digits, parse_decimal_digits by done.
  by rewrite dec_value_integer_of.
Qed.

(** ** The matches of [/\d+/g] are the maximal runs of digits *)

Lemma leading_digits_all (s : list ascii) : all_digits (FuelPolicy.leading_digits s).
Proof.
  induction s as [|c s IH]; simpl; [constructor|].
  destruct (JS.is_digit c) eqn:Hc; by constructor.
Qed.

Lemma scan_maximal_runs (s : list ascii) :
  JS.scan s = FuelPolicy.maximal_runs false s
  /\ forall run, JS.scan_run run s
       = (rev run ++ FuelPolicy.leading_digits s) :: FuelPolicy.maximal_runs true s.
Proof.
  induction s as [|c s [IHscan IHrun]]; split; try intros run.
  - reflexivity.
  - simpl. by rewrite app_nil_r.
  - cbn [JS.scan FuelPolicy.maximal_runs FuelPolicy.leading_digits].
    destruct (JS.is_digit c); simpl.
    + apply IHrun.
    + apply IHscan.
  - cbn [JS.scan_run FuelPolicy.maximal_runs FuelPolicy.leading_digits].
    destruct (JS.is_digit c); simpl.
    + rewrite IHrun. simpl. by rewrite <- app_assoc.
    + by rewrite app_nil_r, IHscan.
Qed.

Lemma maximal_runs_digits (b : bool) (s : list ascii) :
  Forall (fun r => r <> [] /\ all_digits r) (FuelPolicy.maximal_runs b s).
Proof.
  revert b. induction s as [|c s IH]; intros b; [constructor|].
  cbn [FuelPolicy.maximal_runs]. apply Forall_app. split; [|apply IH].
  destruct (JS.is_digit c && negb b) eqn:Hc; [|constructor].
  apply andb_true_iff in Hc as [Hc _].
  constructor; [|constructor]. split.
  - simpl. by rewrite Hc.
  - apply leading_digits_all.
Qed.

Lemma sum_of_runs (runs : list (list ascii)) (acc : JS.Num) :
  Forall (fun r => r <> [] /\ all_digits r) runs ->
  fold_left (fun x y => JS.add x y)
    (map (fun m => JS.Number (JS.VStr m)) (map string_of_list_ascii runs)) acc
  = fold_left (fun a z => JS.add a (JS.ofZ z)) (map FuelPolicy.integer_of runs) acc.
Proof.
  intros Hruns. revert acc. induction Hruns as [|r runs [Hne Hr] _ IH]; intros acc.
  - reflexivity.
  - cbn [map fold_left]. by rewrite Number_digits, IH.
Qed.

(** The receiver of [.match] is a string: a truthy primitive that is not a
    string converts to a number. *)
Lemma match_receiver_is_string (v : JS.value) :
  JS.truthy v = true -> JS.isNaN (JS.Number v) = true -> exists s, v = JS.VStr s.
Proof.
  destruct v as [| |b|n|s]; simpl; try discriminate; eauto.
  - by destruct b.
  - by destruct n.
Qed.

Lemma falsy_Number (v : JS.value) :
  JS.truthy v = false -> JS.isNaN (JS.Number v) = false -> JS.is_zero (JS.Number v) = true.
Proof.
  destruct v as [| |b|n|s]; simpl; try discriminate; try reflexivity.
  - by intros ->.
  - intros Hn%negb_false_iff Hnan. rewrite Hnan in Hn. exact Hn.
  - intros Hs%negb_false_iff%String.eqb_eq _. by subst s.
Qed.

Lemma fuelOf_text (trip : Obj) (s : string) :
  trip !! "fuelAmount" = Some (JS.VStr s) ->
  JS.truthy (JS.VStr s) = true ->
  JS.isNaN (JS.Number (JS.VStr s)) = true ->
  fuelOf trip = FuelPolicy.rounded_sum (FuelPolicy.integers s).
Proof.
  intros Hget Ht Hnan. unfold fuelOf, field. rewrite Hget.
  rewrite Ht, Hnan. cbn [negb]. unfold JS.match_digits.
  unfold FuelPolicy.rounded_sum, FuelPolicy.integers.
  destruct (scan_maximal_runs (JS.chars s)) as [-> _].
  pose proof (maximal_runs_digits false (JS.chars s)) as Hruns.
  destruct (FuelPolicy.maximal_runs false (JS.chars s)) as [|r runs] eqn:Hr.
  - reflexivity.
  - by rewrite sum_of_runs.
Qed.

Lemma fuelOf_rounded (trip : Obj) :
  JS.same (fuelOf trip) (FuelPolicy.fuel_rounded (trip !! "fuelAmount")).
Proof.
  destruct (trip !! "fuelAmount") as [v|] eqn:Hget.
  - cbn [FuelPolicy.fuel_rounded].
    destruct (JS.truthy v) eqn:Ht, (JS.isNaN (JS.Number v)) eqn:Hnan.
    + destruct (match_receiver_is_string v Ht Hnan) as [s ->].
      left. by apply fuelOf_text.
    + left. unfold fuelOf, field. rewrite Hget. by rewrite Ht, Hnan.
    + left. unfold fuelOf, field. rewrite Hget. rewrite Ht.
      destruct v as [| |b|n|s]; try reflexivity.
      apply negb_false_iff, String.eqb_eq in Ht. by subst s.
    + right. unfold fuelOf, field. rewrite Hget. rewrite Ht.
      split; [reflexivity | by apply falsy_Number].
  - left. unfold fuelOf, field. by rewrite Hget.
Qed.

(** ** Sums within the exact range *)

Lemma digit_val_nonneg (c : ascii) : JS.is_digit c = true -> 0 <= JS.digit_val c.
Proof. intros Hc%is_digit_code. unfold JS.digit_val. lia. Qed.

Lemma integer_of_nonneg (r : list ascii) : all_digits r -> 0 <= FuelPolicy.integer_of r.
Proof.
  induction 1 as [|c r Hc%digit_val_nonneg _ IH]; cbn [FuelPolicy.integer_of]; [lia|].
  assert (0 <= 10 ^ Z.of_nat (length r)) by (apply Z.pow_nonneg; lia). nia.
Qed.

Lemma integers_nonneg (s : string) : Forall (fun z => 0 <= z) (FuelPolicy.integers s).
Proof.
  unfold FuelPolicy.integers. apply Forall_map.
  eapply Forall_impl; [apply maximal_runs_digits|].
  intros r [_ Hr]. by apply integer_of_nonneg.
Qed.

Lemma sum_nonneg (zs : list Z) : Forall (fun z => 0 <= z) zs -> 0 <= FuelPolicy.sum zs.
Proof. unfold FuelPolicy.sum. induction 1; cbn [fold_right]; lia. Qed.

(** While the total stays within [2 ^ 53], no partial sum is rounded. *)
Lemma rounded_sum_exact (zs : list Z) :
  Forall (fun z => 0 <= z) zs -> FuelPolicy.sum zs <= 2 ^ 53 ->
  FuelPolicy.rounded_sum zs = JS.ofZ (FuelPolicy.sum zs).
Proof.
  unfold FuelPolicy.rounded_sum. intros Hzs.
  enough (Hacc : forall a, 0 <= a -> a + FuelPolicy.sum zs <= 2 ^ 53 ->
            fold_left (fun a z => JS.add a (JS.ofZ z)) zs (JS.ofZ a)
            = JS.ofZ (a + FuelPolicy.sum zs)).
  { intros Hsum. rewrite (Hacc 0); [f_equal|..]; lia. }
  induction Hzs as [|z zs Hz Hzs IH]; intros a Ha Hsum.
  - cbn [fold_left]. f_equal. unfold FuelPolicy.sum. cbn [fold_right]. lia.
  - pose proof (sum_nonneg zs Hzs) as Hnn.
    change (FuelPolicy.sum (z :: zs)) with (z + FuelPolicy.sum zs) in *.
    cbn [fold_left]. rewrite add_ofZ, IH by lia. f_equal. lia.
Qed.

Lemma fuel_rounded_exact (fuelAmount : option JS.value) :
  FuelPolicy.in_exact_range fuelAmount ->
  FuelPolicy.fuel_rounded fuelAmount = FuelPolicy.fuel fuelAmount.
Proof.
  destruct fuelAmount as [[| |b|n|s]|]; try reflexivity.
  cbn [FuelPolicy.in_exact_range FuelPolicy.fuel_rounded FuelPolicy.fuel]. intros Hs.
  destruct (JS.isNaN (JS.Number (JS.VStr s))); [|reflexivity].
  apply rounded_sum_exact; [apply integers_nonneg | exact Hs].
Qed.

(** C3, as the claim states it, fails: the fuel of a note with the run
    99999999999999999999 is the number 100000000000000000000, not the run
    read as an integer; and the fuel of "9007199254740992 1 1" is
    9007199254740992, not the sum 9007199254740994 of its runs. *)
Lemma fuel_is_not_the_sum_of_long_runs :
  FuelPolicy.integers "x 99999999999999999999" = [99999999999999999999]
  /\ JS.integer_value (fuelOf Scenario.trip_long_run) = Some 100000000000000000000
  /\ FuelPolicy.integers "9007199254740992 1 1" = [9007199254740992; 1; 1]
  /\ JS.integer_value (fuelOf Scenario.trip_large_runs) = Some 9007199254740992
  /\ JS.integer_value (FuelPolicy.fuel (Scenario.trip_large_runs !! "fuelAmount"))
     = Some 9007199254740994
  /\ ~ JS.same (fuelOf Scenario.trip_large_runs)
         (FuelPolicy.fuel (Scenario.trip_large_runs !! "fuelAmount")).
Proof.
  repeat split; try num_eq.
  intros [H | [H _]]; vm_compute in H; discriminate H.
Qed.

(** C3, amended.  The fuel of a trip is 0 when [fuelAmount] is absent, the
    number it parses to when it parses as one, and otherwise the sum of the
    maximal runs of digits of the text, each read as an integer, taken in
    the arithmetic of numbers: from left to right, each run and each partial
    sum rounded to the nearest double.  When the runs sum to at most
    [2 ^ 53] nothing is rounded and the fuel is the sum of the runs.  So
    "500" gives 500, "2 liters @100 plus 50 toll note" gives 152 and a trip
    without [fuelAmount] gives 0. *)
Theorem fuel_follows_policy :
  (forall trip : Obj,
     JS.same (fuelOf trip) (FuelPolicy.fuel_rounded (trip !! "fuelAmount")))
  /\ (forall trip : Obj,
        FuelPolicy.in_exact_range (trip !! "fuelAmount") ->
        JS.same (fuelOf trip) (FuelPolicy.fuel (trip !! "fuelAmount")))
  /\ (forall (trip : Obj) (s : string),
        trip !! "fuelAmount" = Some (JS.VStr s) ->
        JS.isNaN (JS.Number (JS.VStr s)) = true ->
        FuelPolicy.sum (FuelPolicy.integers s) <= 2 ^ 53 ->
        JS.integer_value (fuelOf trip) = Some (FuelPolicy.sum (FuelPolicy.integers s)))
  /\ fuelOf Scenario.trip_500 = JS.ofZ 500
  /\ fuelOf Scenario.trip_note = JS.ofZ 152
  /\ fuelOf Scenario.trip_no_fuel = JS.ofZ 0
  /\ fuelOf (<["fuelAmount" := JS.VUndef]> Scenario.trip_no_fuel) = JS.ofZ 0.
Proof.
  split; [exact fuelOf_rounded|].
  split; [|split; [|repeat split; num_eq]].
  - intros trip Hrange. rewrite <- fuel_rounded_exact by done. apply fuelOf_rounded.
  - intros trip s Hget Hnan Hsum.
    assert (Ht : JS.truthy (JS.VStr s) = true).
    { cbn [JS.truthy]. destruct (String.eqb_spec s "") as [->|]; [discriminate Hnan|done]. }
    rewrite (fuelOf_text trip s Hget Ht Hnan).
    pose proof (sum_nonneg _ (integers_nonneg s)) as Hnn.
    rewrite rounded_sum_exact by (done || apply integers_nonneg).
    apply integer_value_ofZ. lia.
Qed.

Lemma fuel_follows_policy_witness :
  FuelPolicy.in_exact_range (Scenario.trip_note !! "fuelAmount")
  /\ JS.same (fuelOf Scenario.trip_note)
       (FuelPolicy.fuel (Scenario.trip_note !! "fuelAmount"))
  /\ FuelPolicy.sum (FuelPolicy.integers "2 liters @100 plus 50 toll note") = 152
  /\ JS.integer_value (fuelOf Scenario.trip_note) = Some 152.
Proof.
  assert (Hrange : FuelPolicy.in_exact_range (Scenario.trip_note !! "fuelAmount")).
  { vm_compute. discriminate. }
  assert (Hget : Scenario.trip_note !! "fuelAmount"
                 = Some (JS.VStr "2 liters @100 plus 50 toll note")).
  { vm_compute. reflexivity. }
  assert (Hnan : JS.isNaN (JS.Number (JS.VStr "2 liters @100 plus 50 toll note")) = true).
  { vm_compute. reflexivity. }
  assert (Hsum : FuelPolicy.sum (FuelPolicy.integers "2 liters @100 plus 50 toll note")
                 = 152).
  { vm_compute. reflexivity. }
  split; [exact Hrange|].
  split; [exact (proj1 (proj2 fuel_follows_policy) Scenario.trip_note Hrange)|].
  split; [exact Hsum|].
  rewrite <- Hsum.
  apply (proj1 (proj2 (proj2 fuel_follows_policy)) Scenario.trip_note _ Hget Hnan).
  rewrite Hsum. vm_compute. discriminate.
Defined.

Lemma leading_digits_split (s : list ascii) :
  exists post, s = FuelPolicy.leading_digits s ++ post /\ not_before_digit post.
Proof.
  induction s as [|c s (post & Hs & Hpost)]; simpl.
  - by exists [].
  - destruct (JS.is_digit c) eqn:Hc.
    + exists post. split; [simpl; by rewrite <- Hs | done].
    + by exists (c :: s).
Qed.

Lemma leading_digits_run (r post : list ascii) :
  all_digits r -> not_before_digit post -> FuelPolicy.leading_digits (r ++ post) = r.
Proof.
  intros Hr Hpost. induction Hr as [|c r Hc _ IH]; simpl.
  - destruct post as [|c post]; simpl in *; [done | by rewrite Hpost].
  - by rewrite Hc, IH.
Qed.

(** The runs of [FuelPolicy.maximal_runs] are the maximal runs of digits of
    the text: the non-empty stretches of digits that no digit precedes and
    no digit follows. *)
Lemma maximal_runs_are_maximal (after_digit : bool) (s r : list ascii) :
  r ∈ FuelPolicy.maximal_runs after_digit s
  <-> exists pre post,
        s = pre ++ r ++ post /\ r <> [] /\ all_digits r
        /\ not_after_digit after_digit pre /\ not_before_digit post.
Proof.
  revert after_digit. induction s as [|c s IH]; intros b.
  - split; [by intros ?%elem_of_nil|].
    intros (pre & post & Hs & Hne & _). symmetry in Hs.
    apply app_eq_nil in Hs as [_ [Hr _]%app_eq_nil]. done.
  - cbn [FuelPolicy.maximal_runs]. rewrite elem_of_app, IH. split.
    + intros [Hfirst | (pre & post & Hs & Hne & Hr & Hpre & Hpost)].
      * destruct (JS.is_digit c && negb b) eqn:Hc; [|by apply elem_of_nil in Hfirst].
        apply list_elem_of_singleton in Hfirst. subst r.
        apply andb_true_iff in Hc as [Hc Hb%negb_true_iff].
        destruct (leading_digits_split (c :: s)) as (post & Hs & Hpost).
        exists [], post. repeat split; try done.
        -- simpl. by rewrite Hc.
        -- apply leading_digits_all.
      * exists (c :: pre), post. subst s. repeat split; try done.
        unfold not_after_digit in *. destruct pre as [|p pre]; [by simpl in *|].
        rewrite last_cons_cons.
        destruct (last (p :: pre)) eqn:Hlast; [done | by apply last_None in Hlast].
    + intros (pre & post & Hs & Hne & Hr & Hpre & Hpost).
      destruct pre as [|p pre].
      * left. unfold not_after_digit in Hpre. simpl in Hpre. subst b.
        simpl in Hs. rewrite Hs, (leading_digits_run r post Hr Hpost).
        destruct r as [|d r]; [done|]. injection Hs as -> _.
        apply Forall_cons in Hr as [-> _]. simpl. by apply list_elem_of_singleton.
      * right. injection Hs as -> ->. exists pre, post. repeat split; try done.
        unfold not_after_digit in *. destruct pre as [|q pre]; [by simpl in *|].
        rewrite last_cons_cons in Hpre.
        destruct (last (q :: pre)) eqn:Hlast; [done | by apply last_None in Hlast].
Qed.

(** ** The store *)

Lemma findById_save (c : Coll) (i : string) (d d' : Obj) :
  findById c i = Some d -> findById (save c i d') i = Some d'.
Proof.
  induction c as [|[j d0] c IH]; simpl; [discriminate|].
  destruct (String.eqb j i) eqn:Hj; simpl; rewrite Hj; [done|apply IH].
Qed.

Lemma findById_save_ne (c : Coll) (i j : string) (d' : Obj) :
  i <> j -> findById (save c i d') j = findById c j.
Proof.
  intros Hij. induction c as [|[k d0] c IH]; simpl; [done|].
  destruct (String.eqb k i) eqn:Hk; simpl.
  - apply String.eqb_eq in Hk. subst k.
    by rewrite (proj2 (String.eqb_neq i j)).
  - by rewrite IH.
Qed.

Lemma save_same (c : Coll) (i : string) (d : Obj) :
  findById c i = Some d -> save c i d = c.
Proof.
  induction c as [|[j d0] c IH]; simpl; [done|].
  destruct (String.eqb j i) eqn:Hj.
  - by intros [= ->].
  - intros H. by rewrite IH.
Qed.

Lemma save_ids (c : Coll) (i : string) (d : Obj) : map fst (save c i d) = map fst c.
Proof.
  induction c as [|[j d0] c IH]; simpl; [done|].
  destruct (String.eqb j i); simpl; [done|by rewrite IH].
Qed.

Lemma findById_app_new (c : Coll) (i : string) (d : Obj) :
  findById c i = None -> findById (c ++ [(i, d)]) i = Some d.
Proof.
  induction c as [|[j d0] c IH]; simpl.
  - by rewrite String.eqb_refl.
  - destruct (String.eqb j i); [discriminate|apply IH].
Qed.

Lemma is_role_true (user : User) (r : string) : role user = r -> is_role user r = true.
Proof. intros <-. apply String.eqb_refl. Qed.

Lemma is_role_false (user : User) (r : string) : role user <> r -> is_role user r = false.
Proof. intros H. by apply String.eqb_neq. Qed.

Lemma not_owner_true (trip : Obj) (user : User) :
  JS.String (field trip "driverId") <> id user -> not_owner trip user = true.
Proof. intros H. unfold not_owner. apply negb_true_iff. by apply String.eqb_neq. Qed.

Lemma not_owner_false (trip : Obj) (user : User) :
  JS.String (field trip "driverId") = id user -> not_owner trip user = false.
Proof. intros H. unfold not_owner. apply negb_false_iff. by apply String.eqb_eq. Qed.

(** ** Access to the trip of another driver *)

(** C1, as the claim states it, fails: Ravi, a driver, asks for Kiran's trip
    and the three handlers answer 403, not 404, which differs from the answer
    for a trip that does not exist. *)
Lemma foreign_trip_is_not_reported_as_missing :
  role Scenario.driver_ravi = "driver"
  /\ findById Scenario.trips Scenario.trip1 = Some Scenario.kirans_trip
  /\ JS.String (field Scenario.kirans_trip "driverId") <> id Scenario.driver_ravi
  /\ status (get_trip Scenario.trips Scenario.driver_ravi Scenario.trip1 ∅).1 <> 404
  /\ status (put_trip Scenario.attachRefs Scenario.trips Scenario.driver_ravi
               Scenario.trip1 ∅).1 <> 404
  /\ status (delete_trip Scenario.trips Scenario.driver_ravi Scenario.trip1 ∅ 0).1 <> 404
  /\ (get_trip Scenario.trips Scenario.driver_ravi Scenario.trip1 ∅).1
     <> (get_trip Scenario.trips Scenario.driver_ravi Scenario.trip3 ∅).1.
Proof. repeat split; vm_compute; congruence. Qed.

(** C1, amended.  When a driver addresses a trip whose [driverId] is not the
    driver's id, the fetch, the update and the delete answer 403 Forbidden
    and leave the collection as it was; a trip that does not exist is
    answered with 404. *)
Theorem foreign_trip_forbidden (attachRefs : Obj -> Result Obj) (trips : Coll)
    (user : User) (tid : string) (trip : Obj) (query : Query) (reqBody : Obj) (now : Z) :
  role user = "driver" ->
  findById trips tid = Some trip ->
  JS.String (field trip "driverId") <> id user ->
  get_trip trips user tid query = (respond 403 (BMessage "Forbidden"), trips)
  /\ put_trip attachRefs trips user tid reqBody = (respond 403 (BMessage "Forbidden"), trips)
  /\ delete_trip trips user tid query now = (respond 403 (BMessage "Forbidden"), trips)
  /\ forall missing, findById trips missing = None ->
       get_trip trips user missing query = (respond 404 (BMessage "Trip not found"), trips)
       /\ put_trip attachRefs trips user missing reqBody
          = (respond 404 (BMessage "Trip not found"), trips)
       /\ delete_trip trips user missing query now
          = (respond 404 (BMessage "Trip not found"), trips).
Proof.
  intros Hrole Hfind Hother.
  unfold get_trip, put_trip, delete_trip.
  rewrite Hfind, (is_role_true _ _ Hrole), (not_owner_true _ _ Hother).
  repeat split; try reflexivity; intros; by rewrite H.
Qed.

Lemma foreign_trip_forbidden_witness :
  get_trip Scenario.trips Scenario.driver_ravi Scenario.trip1 ∅
  = (respond 403 (BMessage "Forbidden"), Scenario.trips)
  /\ put_trip Scenario.attachRefs Scenario.trips Scenario.driver_ravi Scenario.trip1
       Scenario.reassign_body
     = (respond 403 (BMessage "Forbidden"), Scenario.trips)
  /\ delete_trip Scenario.trips Scenario.driver_ravi Scenario.trip1 Scenario.hard 0
     = (respond 403 (BMessage "Forbidden"), Scenario.trips).
Proof.
  assert (H1 : role Scenario.driver_ravi = "driver") by reflexivity.
  assert (H2 : findById Scenario.trips Scenario.trip1 = Some Scenario.kirans_trip)
    by reflexivity.
  assert (H3 : JS.String (field Scenario.kirans_trip "driverId") <> id Scenario.driver_ravi)
    by (vm_compute; discriminate).
  destruct (foreign_trip_forbidden Scenario.attachRefs Scenario.trips Scenario.driver_ravi
              Scenario.trip1 Scenario.kirans_trip ∅ Scenario.reassign_body 0 H1 H2 H3)
    as (Hget & Hput & _).
  destruct (foreign_trip_forbidden Scenario.attachRefs Scenario.trips Scenario.driver_ravi
              Scenario.trip1 Scenario.kirans_trip Scenario.hard Scenario.reassign_body 0
              H1 H2 H3)
    as (_ & _ & Hdel & _).
  exact (conj Hget (conj Hput Hdel)).
Defined.

(** ** The statistics scenario *)

Ltac num_neq := let H := fresh in intros H; vm_compute in H; discriminate H.

(** C4, as the claim states it, fails: on the two trips of the scenario the
    fuel is not 350, the expenses are not 370 and the profit is not 2630. *)
Lemma stats_scenario_is_not_370 :
  (get_stats Scenario.stats_trips [] [] Scenario.admin).1
  = respond 200 (BStats (computeStats Scenario.stats_trips [] []))
  /\ totalFuel Scenario.stats_trips <> JS.ofZ 350
  /\ totalExpenses (computeStats Scenario.stats_trips [] []) <> JS.ofZ 370
  /\ totalProfit (computeStats Scenario.stats_trips [] []) <> JS.ofZ 2630.
Proof. repeat split; try num_neq. Qed.

(** C4, amended.  On two visible trips with [tripAmount] 1000 and 2000,
    [fuelAmount] "300" and "1 x 50", [tolls] 0 and 20, and no maintenance
    or ad records, the statistics are: two trips, [totalTripAmount] 3000,
    fuel 300 + (1 + 50) = 351, [totalExpenses] 371 and [totalProfit] 2629. *)
Theorem stats_scenario :
  (get_stats Scenario.stats_trips [] [] Scenario.admin).1
  = respond 200 (BStats (computeStats Scenario.stats_trips [] []))
  /\ totalTrips (computeStats Scenario.stats_trips [] []) = 2
  /\ totalTripAmount (computeStats Scenario.stats_trips [] []) = JS.ofZ 3000
  /\ totalFuel Scenario.stats_trips = JS.ofZ 351
  /\ totalExpenses (computeStats Scenario.stats_trips [] []) = JS.ofZ 371
  /\ totalMaintenance (computeStats Scenario.stats_trips [] []) = JS.ofZ 0
  /\ totalAds (computeStats Scenario.stats_trips [] []) = JS.ofZ 0
  /\ totalProfit (computeStats Scenario.stats_trips [] []) = JS.ofZ 2629.
Proof. repeat split; try num_eq. Qed.

(** ** Updates by a driver *)

(** C2 fails on the code: Ravi, a driver, creates a trip and then updates it
    with a payload that names Kiran as [driverId]; the update answers 200
    and the stored trip belongs to Kiran. *)
Theorem driver_update_reassigns_driverId :
  let created :=
    post_trips Scenario.attachRefs [] Scenario.driver_ravi
      {[ "fromLocation" := JS.VStr "Tenali" ]} Scenario.trip1 1700000000000 in
  let updated :=
    put_trip Scenario.attachRefs created.2 Scenario.driver_ravi Scenario.trip1
      Scenario.reassign_body in
  status created.1 = 201
  /\ (findById created.2 Scenario.trip1 ≫= (.!! "driverId")) = Some (JS.VStr Scenario.ravi)
  /\ (findById created.2 Scenario.trip1 ≫= (.!! "createdByRole")) = Some (JS.VStr "driver")
  /\ status updated.1 = 200
  /\ (findById updated.2 Scenario.trip1 ≫= (.!! "driverId")) = Some (JS.VStr Scenario.kiran).
Proof. repeat split. Qed.

(** An update by the driver who owns the trip stores the [driverId] the
    resolved payload carries. *)
Lemma driver_update_takes_payload_driverId (attachRefs : Obj -> Result Obj)
    (trips : Coll) (user : User) (tid : string) (trip reqBody updates : Obj)
    (v : JS.value) :
  role user = "driver" ->
  findById trips tid = Some trip ->
  JS.String (field trip "driverId") = id user ->
  (if JS.truthy (field reqBody "driverId") || JS.truthy (field reqBody "vehicleId")
   then attachRefs reqBody else Ok reqBody) = Ok updates ->
  updates !! "driverId" = Some v ->
  status (put_trip attachRefs trips user tid reqBody).1 = 200
  /\ (findById (put_trip attachRefs trips user tid reqBody).2 tid ≫= (.!! "driverId"))
     = Some v.
Proof.
  intros Hrole Hfind Hown Hrefs Hv. unfold put_trip.
  rewrite Hfind, (is_role_true _ _ Hrole), (not_owner_false _ _ Hown), Hrefs.
  cbn [andb fst snd status respond]. split; [done|].
  rewrite (findById_save _ _ trip) by done. cbn.
  apply lookup_union_Some_l. unfold strip_for_driver. by simplify_map_eq.
Qed.

(** ** Creation by a driver *)

(** C9 fails on the code, with the resolver of section 4.2: Ravi, a driver,
    creates a trip that names a vehicle and no driver name or number; the
    stored trip carries Ravi's name and number next to the vehicle type. *)
Theorem driver_create_stamps_own_snapshot :
  let created :=
    post_trips Scenario.attachRefs [] Scenario.driver_ravi Scenario.create_body
      Scenario.trip1 1700000000000 in
  Scenario.create_body !! "driverName" = None
  /\ Scenario.create_body !! "driverNumber" = None
  /\ status created.1 = 201
  /\ (findById created.2 Scenario.trip1 ≫= (.!! "vehicleType")) = Some (JS.VStr "SUV")
  /\ (findById created.2 Scenario.trip1 ≫= (.!! "driverName")) = Some (JS.VStr "Ravi")
  /\ (findById created.2 Scenario.trip1 ≫= (.!! "driverNumber"))
     = Some (JS.VStr "9000000001").
Proof. repeat split. Qed.

(** With the resolver of section 4.2, every trip a driver creates with a
    vehicle carries the name and the number of the driver's own record. *)
Lemma driver_create_with_vehicle_stamps_driver (drivers : gmap string Refs.Driver)
    (vehicles : gmap string Refs.Vehicle) (trips : Coll) (user : User) (reqBody : Obj)
    (newId : string) (now : Z) :
  role user = "driver" ->
  id user <> "" ->
  JS.truthy (field reqBody "vehicleId") = true ->
  status (post_trips (Refs.attachRefs drivers vehicles) trips user reqBody newId now).1 = 201 ->
  exists d trip,
    drivers !! id user = Some d
    /\ body (post_trips (Refs.attachRefs drivers vehicles) trips user reqBody newId now).1
       = BTrip (newId, trip)
    /\ trip !! "driverName" = Some (JS.VStr (Refs.name d))
    /\ trip !! "driverNumber" = Some (JS.VStr (Refs.phone d)).
Proof.
  intros Hrole Hid Hvehicle.
  assert (Hadmin : is_role user "admin" = false).
  { apply is_role_false. rewrite Hrole. discriminate. }
  unfold post_trips. rewrite Hadmin, (is_role_true _ _ Hrole). cbn [mbind Result_bind].
  set (data := <["driverId" := JS.VStr (id user)]>
                 (<["createdBy" := JS.VStr (id user)]>
                    (<["createdByRole" := JS.VStr (role user)]> reqBody))).
  assert (Hv : field data "vehicleId" = field reqBody "vehicleId").
  { unfold field, data. by simplify_map_eq. }
  assert (Hd : field data "driverId" = JS.VStr (id user)).
  { unfold field, data. by simplify_map_eq. }
  rewrite Hv, Hvehicle, Hd. unfold Refs.attachRefs.
  assert (Hd' : field (<["driverId" := JS.VStr (id user)]> data) "driverId"
                = JS.VStr (id user)).
  { unfold field. by simplify_map_eq. }
  assert (Hv' : field (<["driverId" := JS.VStr (id user)]> data) "vehicleId"
                = field reqBody "vehicleId").
  { rewrite <- Hv. unfold field. by simplify_map_eq. }
  rewrite Hd', Hv', Hvehicle. cbn [JS.truthy JS.String].
  rewrite (proj2 (String.eqb_neq (id user) "")) by done. cbn [negb].
  destruct (drivers !! id user) as [d|]; cbn [mbind Result_bind]; [|discriminate].
  destruct (vehicles !! JS.String (field reqBody "vehicleId")) as [v|];
    cbn [mbind Result_bind]; [|discriminate].
  unfold save_new. cbn [fst new_Trip].
  destruct (findById trips newId); cbn [mbind Result_bind]; [discriminate|].
  intros _. eexists _, _. split; [reflexivity|]. split; [reflexivity|].
  split; apply lookup_union_Some_l; by simplify_map_eq.
Qed.

Lemma attachRefs_keeps_driverId (drivers : gmap string Refs.Driver)
    (vehicles : gmap string Refs.Vehicle) (p p' : Obj) :
  Refs.attachRefs drivers vehicles p = Ok p' -> p' !! "driverId" = p !! "driverId".
Proof.
  unfold Refs.attachRefs.
  destruct (JS.truthy (field p "driverId"));
    [destruct (drivers !! JS.String (field p "driverId"))|];
    cbn; try discriminate;
    (destruct (JS.truthy (field p "vehicleId"));
     [destruct (vehicles !! JS.String (field p "vehicleId"))|]);
    try discriminate; intros [= <-]; by simplify_map_eq.
Qed.

(** C10.  A create request of a driver either stores a trip whose [driverId]
    is the driver's own id, whatever the payload says, or is answered 400
    and stores nothing.  It stores the trip whenever the new id is free and
    the payload names no vehicle. *)
Theorem driver_create_owns_trip (attachRefs : Obj -> Result Obj) (trips : Coll)
    (user : User) (reqBody : Obj) (newId : string) (now : Z) :
  (forall p p', attachRefs p = Ok p' -> p' !! "driverId" = p !! "driverId") ->
  role user = "driver" ->
  ((exists trip,
      post_trips attachRefs trips user reqBody newId now
      = (respond 201 (BTrip (newId, trip)), trips ++ [(newId, trip)])
      /\ trip !! "driverId" = Some (JS.VStr (id user))
      /\ findById (trips ++ [(newId, trip)]) newId = Some trip)
   \/ (exists m,
         post_trips attachRefs trips user reqBody newId now
         = (respond 400 (BMessage m), trips)))
  /\ (findById trips newId = None -> JS.truthy (field reqBody "vehicleId") = false ->
      status (post_trips attachRefs trips user reqBody newId now).1 = 201).
Proof.
  intros Hkeep Hrole.
  assert (Hadmin : is_role user "admin" = false).
  { apply is_role_false. rewrite Hrole. discriminate. }
  unfold post_trips. rewrite Hadmin, (is_role_true _ _ Hrole). cbn [mbind Result_bind].
  set (data := <["driverId" := JS.VStr (id user)]>
                 (<["createdBy" := JS.VStr (id user)]>
                    (<["createdByRole" := JS.VStr (role user)]> reqBody))).
  assert (Hvehicle : field data "vehicleId" = field reqBody "vehicleId").
  { unfold field, data. by simplify_map_eq. }
  assert (Hnew : forall d : Obj, d !! "driverId" = Some (JS.VStr (id user)) ->
            (new_Trip newId now d).2 !! "driverId" = Some (JS.VStr (id user))).
  { intros d Hd. unfold new_Trip. cbn [snd]. by apply lookup_union_Some_l. }
  assert (Hsave : forall d : Obj, d !! "driverId" = Some (JS.VStr (id user)) ->
    (exists trip,
      match (save_new trips (new_Trip newId now d) ≫=
               (fun trips' => Ok (respond 201 (BTrip (new_Trip newId now d)), trips'))) with
      | Ok r => r
      | Throw m => (respond 400 (BMessage m), trips)
      end = (respond 201 (BTrip (newId, trip)), trips ++ [(newId, trip)])
      /\ trip !! "driverId" = Some (JS.VStr (id user))
      /\ findById (trips ++ [(newId, trip)]) newId = Some trip)
    \/ (exists m,
      match (save_new trips (new_Trip newId now d) ≫=
               (fun trips' => Ok (respond 201 (BTrip (new_Trip newId now d)), trips'))) with
      | Ok r => r
      | Throw m => (respond 400 (BMessage m), trips)
      end = (respond 400 (BMessage m), trips))).
  { intros d Hd. unfold save_new. cbn [fst new_Trip].
    destruct (findById trips newId) eqn:Hfree; cbn.
    - right. eauto.
    - left. eexists. split; [reflexivity|]. split.
      + by apply (Hnew d).
      + by apply findById_app_new. }
  split.
  - destruct (JS.truthy (field data "vehicleId")).
    + destruct (attachRefs (<["driverId" := field data "driverId"]> data)) as [d|m] eqn:Hrefs.
      * cbn [mbind Result_bind]. apply Hsave.
        rewrite (Hkeep _ _ Hrefs). unfold field, data. by simplify_map_eq.
      * right. eauto.
    + cbn [mbind Result_bind]. apply Hsave. unfold data. by simplify_map_eq.
  - intros Hfree Hno. rewrite Hvehicle, Hno. cbn [mbind Result_bind].
    unfold save_new. cbn [fst new_Trip]. by rewrite Hfree.
Qed.

Lemma driver_create_owns_trip_witness :
  exists trip,
    post_trips Scenario.attachRefs Scenario.trips Scenario.driver_ravi
      (<["driverId" := JS.VStr Scenario.kiran]> Scenario.create_body) Scenario.trip3 0
    = (respond 201 (BTrip (Scenario.trip3, trip)),
       Scenario.trips ++ [(Scenario.trip3, trip)])
    /\ trip !! "driverId" = Some (JS.VStr Scenario.ravi).
Proof.
  destruct (driver_create_owns_trip Scenario.attachRefs Scenario.trips Scenario.driver_ravi
              (<["driverId" := JS.VStr Scenario.kiran]> Scenario.create_body)
              Scenario.trip3 0
              (attachRefs_keeps_driverId Scenario.drivers Scenario.vehicles) eq_refl)
    as [[(trip & Hpost & Hid & _) | (m & Hfail)] _].
  - exists trip. split; [exact Hpost | exact Hid].
  - exfalso.
    assert (Hst : status (post_trips Scenario.attachRefs Scenario.trips Scenario.driver_ravi
                            (<["driverId" := JS.VStr Scenario.kiran]> Scenario.create_body)
                            Scenario.trip3 0).1 = 201) by (vm_compute; reflexivity).
    rewrite Hfail in Hst. discriminate Hst.
Defined.

(** ** Deleting and restoring *)

(** C5.  When a driver deletes a trip of their own, whatever the query says
    about [hard], the answer is 200 and the trip stays in the collection
    under its id, marked as deleted: a trip that was not yet deleted gets
    [isDriverDeleted], [driverDeletedAt] and [driverDeletedBy], one that was
    is left as it is.  No document is removed. *)
Theorem driver_delete_is_soft (trips : Coll) (user : User) (tid : string) (trip : Obj)
    (query : Query) (now : Z) :
  role user = "driver" ->
  findById trips tid = Some trip ->
  JS.String (field trip "driverId") = id user ->
  let trip' :=
    if JS.truthy (field trip "isDriverDeleted") then trip
    else <["driverDeletedBy" := JS.VStr (id user)]>
           (<["driverDeletedAt" := JS.VNum (JS.ofZ now)]>
              (<["isDriverDeleted" := JS.VBool true]> trip)) in
  let trips' := (delete_trip trips user tid query now).2 in
  (delete_trip trips user tid query now).1
  = respond 200 (BMessageTrip "Trip marked deleted by driver" (tid, trip'))
  /\ findById trips' tid = Some trip'
  /\ JS.truthy (field trip' "isDriverDeleted") = true
  /\ map fst trips' = map fst trips.
Proof.
  intros Hrole Hfind Hown. unfold delete_trip.
  rewrite Hfind, (is_role_true _ _ Hrole), (not_owner_false _ _ Hown).
  destruct (JS.truthy (field trip "isDriverDeleted")) eqn:Hdel; cbn [negb fst snd].
  - done.
  - repeat split.
    + by apply (findById_save _ _ trip).
    + unfold field. by simplify_map_eq.
    + apply save_ids.
Qed.

Lemma driver_delete_is_soft_witness :
  (delete_trip Scenario.trips Scenario.driver_ravi Scenario.trip2 Scenario.hard
     1700000000000).1
  = respond 200 (BMessageTrip "Trip marked deleted by driver"
                   (Scenario.trip2, Scenario.ravis_deleted_trip))
  /\ findById (delete_trip Scenario.trips Scenario.driver_ravi Scenario.trip2
                 Scenario.hard 1700000000000).2 Scenario.trip2
     = Some Scenario.ravis_deleted_trip.
Proof.
  destruct (driver_delete_is_soft Scenario.trips Scenario.driver_ravi Scenario.trip2
              Scenario.ravis_trip Scenario.hard 1700000000000
              eq_refl eq_refl eq_refl) as (Hres & Hfind & _).
  exact (conj Hres Hfind).
Defined.

Lemma delete_of_deleted (trips : Coll) (user : User) (tid : string) (trip : Obj)
    (query : Query) (now : Z) :
  findById trips tid = Some trip ->
  JS.truthy (field trip "isDriverDeleted") = true ->
  (role user = "driver" /\ JS.String (field trip "driverId") = id user)
  \/ (role user = "admin" /\ query !! "hard" <> Some "true"%string) ->
  exists message,
    delete_trip trips user tid query now
    = (respond 200 (BMessageTrip message (tid, trip)), trips).
Proof.
  intros Hfind Hdel [[Hrole Hown] | [Hrole Hsoft]]; unfold delete_trip; rewrite Hfind.
  - rewrite (is_role_true _ _ Hrole), (not_owner_false _ _ Hown), Hdel. cbn [negb]. eauto.
  - rewrite is_role_false by (rewrite Hrole; discriminate).
    unfold query_true. rewrite bool_decide_eq_false_2 by done.
    rewrite Hdel. cbn [negb]. rewrite save_same by done. eauto.
Qed.

(** C6.  Deleting a trip that is already deleted, by the driver who owns it
    or by an admin without [hard=true], answers 200 with the trip as it was
    and leaves the collection as it was: [isDriverDeleted],
    [driverDeletedAt] and [driverDeletedBy] keep their values. *)
Theorem soft_delete_idempotent (trips : Coll) (user : User) (tid : string) (trip : Obj)
    (query : Query) (now : Z) :
  findById trips tid = Some trip ->
  JS.truthy (field trip "isDriverDeleted") = true ->
  (role user = "driver" /\ JS.String (field trip "driverId") = id user)
  \/ (role user = "admin" /\ query !! "hard" <> Some "true"%string) ->
  exists message,
    delete_trip trips user tid query now
    = (respond 200 (BMessageTrip message (tid, trip)), trips).
Proof. apply delete_of_deleted. Qed.

Lemma soft_delete_idempotent_witness :
  (exists message,
     delete_trip Scenario.trips_after_delete Scenario.driver_ravi Scenario.trip2 ∅
       1800000000000
     = (respond 200 (BMessageTrip message (Scenario.trip2, Scenario.ravis_deleted_trip)),
        Scenario.trips_after_delete))
  /\ (exists message,
        delete_trip Scenario.trips_after_delete Scenario.admin Scenario.trip2 ∅
          1800000000000
        = (respond 200 (BMessageTrip message (Scenario.trip2, Scenario.ravis_deleted_trip)),
           Scenario.trips_after_delete)).
Proof.
  split.
  - apply (soft_delete_idempotent Scenario.trips_after_delete Scenario.driver_ravi
             Scenario.trip2 Scenario.ravis_deleted_trip ∅ 1800000000000 eq_refl eq_refl).
    left. split; reflexivity.
  - apply (soft_delete_idempotent Scenario.trips_after_delete Scenario.admin
             Scenario.trip2 Scenario.ravis_deleted_trip ∅ 1800000000000 eq_refl eq_refl).
    right. split; [reflexivity | discriminate].
Defined.

(** Two deletes in a row: the second finds the trip deleted by the first,
    so the collection after the second is the collection after the first. *)
Lemma delete_twice (trips : Coll) (user : User) (tid : string) (trip : Obj)
    (now later : Z) :
  findById trips tid = Some trip ->
  (role user = "driver" /\ JS.String (field trip "driverId") = id user)
  \/ role user = "admin" ->
  let once := delete_trip trips user tid ∅ now in
  let twice := delete_trip once.2 user tid ∅ later in
  status once.1 = 200 /\ status twice.1 = 200 /\ twice.2 = once.2
  /\ findById twice.2 tid = findById once.2 tid.
Proof.
  intros Hfind Hwho. cbv zeta.
  assert (Hfirst : exists trip',
    status (delete_trip trips user tid ∅ now).1 = 200
    /\ findById (delete_trip trips user tid ∅ now).2 tid = Some trip'
    /\ JS.truthy (field trip' "isDriverDeleted") = true
    /\ field trip' "driverId" = field trip "driverId").
  { unfold delete_trip. rewrite Hfind. destruct Hwho as [[Hrole Hown] | Hrole].
    - rewrite (is_role_true _ _ Hrole), (not_owner_false _ _ Hown).
      destruct (JS.truthy (field trip "isDriverDeleted")) eqn:Hdel; cbn [negb fst snd].
      + eauto.
      + eexists. split; [done|]. split; [by apply (findById_save _ _ trip)|].
        unfold field. by simplify_map_eq.
    - rewrite is_role_false by (rewrite Hrole; discriminate).
      unfold query_true. rewrite bool_decide_eq_false_2 by by simplify_map_eq.
      cbn [fst snd status respond]. eexists. split; [done|].
      split; [by apply (findById_save _ _ trip)|].
      destruct (JS.truthy (field trip "isDriverDeleted")) eqn:Hdel; cbn [negb].
      + done.
      + unfold field. by simplify_map_eq. }
  destruct Hfirst as (trip' & Hstatus & Hfind' & Hdel' & Hid).
  assert (Hwho' : (role user = "driver" /\ JS.String (field trip' "driverId") = id user)
                  \/ (role user = "admin" /\ (∅ : Query) !! "hard" <> Some "true"%string)).
  { destruct Hwho as [[Hrole Hown] | Hrole]; [left|right]; split; try done.
    by rewrite Hid. }
  destruct (delete_of_deleted _ user tid trip' ∅ later Hfind' Hdel' Hwho')
    as [message Hsecond].
  rewrite Hsecond. done.
Qed.

(** C7.  Restore answers 403 to every caller who is not an admin and leaves
    the collection, so every lifecycle field, as it was.  For an admin and a
    trip that exists it answers 200 and stores the trip with
    [isDriverDeleted] false and [driverDeletedAt] and [driverDeletedBy]
    null, the other fields and the other trips being kept.  An answer of 200
    is given to admins only. *)
Theorem restore_admin_only (trips : Coll) (user : User) (tid : string) :
  (role user <> "admin" ->
   restore_trip trips user tid = (respond 403 (BMessage "Admins only"), trips))
  /\ (role user = "admin" -> forall trip, findById trips tid = Some trip ->
      exists trip',
        restore_trip trips user tid
        = (respond 200 (BMessageTrip "Trip restored" (tid, trip')), save trips tid trip')
        /\ findById (save trips tid trip') tid = Some trip'
        /\ trip' !! "isDriverDeleted" = Some (JS.VBool false)
        /\ trip' !! "driverDeletedAt" = Some JS.VNull
        /\ trip' !! "driverDeletedBy" = Some JS.VNull
        /\ (forall k, k <> "isDriverDeleted" -> k <> "driverDeletedAt" ->
            k <> "driverDeletedBy" -> trip' !! k = trip !! k)
        /\ (forall other, tid <> other ->
            findById (save trips tid trip') other = findById trips other))
  /\ (status (restore_trip trips user tid).1 = 200 -> role user = "admin").
Proof.
  unfold restore_trip. repeat split.
  - intros Hrole. by rewrite is_role_false.
  - intros Hrole trip Hfind. rewrite (is_role_true _ _ Hrole), Hfind. cbn [negb].
    eexists. split; [reflexivity|]. repeat split.
    + by apply (findById_save _ _ trip).
    + by simplify_map_eq.
    + by simplify_map_eq.
    + by simplify_map_eq.
    + intros k H1 H2 H3. by simplify_map_eq.
    + intros other Hne. by apply findById_save_ne.
  - destruct (is_role user "admin") eqn:Hrole; cbn [negb].
    + intros _. by apply String.eqb_eq.
    + discriminate.
Qed.

Lemma restore_admin_only_witness :
  restore_trip Scenario.trips_after_delete Scenario.driver_ravi Scenario.trip2
  = (respond 403 (BMessage "Admins only"), Scenario.trips_after_delete)
  /\ exists trip',
       (restore_trip Scenario.trips_after_delete Scenario.admin Scenario.trip2).1
       = respond 200 (BMessageTrip "Trip restored" (Scenario.trip2, trip'))
       /\ trip' !! "isDriverDeleted" = Some (JS.VBool false)
       /\ trip' !! "driverDeletedAt" = Some JS.VNull
       /\ trip' !! "driverDeletedBy" = Some JS.VNull.
Proof.
  split.
  - apply (restore_admin_only Scenario.trips_after_delete Scenario.driver_ravi
             Scenario.trip2). discriminate.
  - destruct (restore_admin_only Scenario.trips_after_delete Scenario.admin
                Scenario.trip2) as (_ & Hadmin & _).
    destruct (Hadmin eq_refl Scenario.ravis_deleted_trip eq_refl)
      as (trip' & Hres & _ & H1 & H2 & H3 & _).
    exists trip'. rewrite Hres. repeat split; assumption.
Defined.

(** ** Listings and statistics hide deleted trips *)

Lemma trip_match_deleted (user : User) (d : Doc) :
  d.2 !! "isDriverDeleted" = Some (JS.VBool true) -> trip_match user d = false.
Proof.
  intros H. unfold trip_match. by rewrite bool_decide_eq_false_2 by (rewrite H; auto).
Qed.

Lemma filter_without (user : User) (before after : Coll) (d : Doc) :
  d.2 !! "isDriverDeleted" = Some (JS.VBool true) ->
  List.filter (trip_match user) (before ++ d :: after)
  = List.filter (trip_match user) (before ++ after).
Proof.
  intros H. rewrite !List.filter_app. cbn [List.filter].
  by rewrite trip_match_deleted.
Qed.

(** C8.  A trip with [isDriverDeleted] true, whoever set the flag and
    whatever the role of the caller, is in no row of the listing and changes
    nothing in the listing or in the statistics: both answers are the ones
    the collection without that trip gives. *)
Theorem deleted_trips_hidden (sortRows : string -> Coll -> Coll) (user : User)
    (query : Query) (maintenances ads : Coll) :
  (forall sort rows, sortRows sort rows ≡ₚ rows) ->
  (forall trips d, d.2 !! "isDriverDeleted" = Some (JS.VBool true) ->
     d ∉ rows_of (body (get_trips sortRows trips user query).1))
  /\ (forall before after d, d.2 !! "isDriverDeleted" = Some (JS.VBool true) ->
        (get_trips sortRows (before ++ d :: after) user query).1
        = (get_trips sortRows (before ++ after) user query).1
        /\ (get_stats (before ++ d :: after) maintenances ads user).1
           = (get_stats (before ++ after) maintenances ads user).1).
Proof.
  intros Hsort. split.
  - intros trips d Hdel Hin. unfold get_trips in Hin. cbn in Hin.
    rewrite Hsort in Hin. apply list_elem_of_In, List.filter_In in Hin as [_ Hmatch].
    by rewrite trip_match_deleted in Hmatch.
  - intros before after d Hdel. unfold get_trips, get_stats. cbn [fst].
    by rewrite !(filter_without user before after d Hdel).
Qed.

Lemma deleted_trips_hidden_witness :
  (forall user : User,
     (Scenario.trip2, Scenario.ravis_deleted_trip)
     ∉ rows_of (body (get_trips Scenario.naturalOrder Scenario.trips_after_delete
                        user ∅).1))
  /\ (get_stats Scenario.trips_after_delete [] [] Scenario.admin).1
     = (get_stats [(Scenario.trip1, Scenario.kirans_trip)] [] [] Scenario.admin).1.
Proof.
  split.
  - intros user.
    apply (deleted_trips_hidden Scenario.naturalOrder user ∅ [] []
             (fun _ rows => reflexivity rows)).
    reflexivity.
  - apply (deleted_trips_hidden Scenario.naturalOrder Scenario.admin ∅ [] []
             (fun _ rows => reflexivity rows))
      with (before := [(Scenario.trip1, Scenario.kirans_trip)]) (after := [])
           (d := (Scenario.trip2, Scenario.ravis_deleted_trip)).
    reflexivity.
Defined.

(** * Further properties of the routers *)

(** ** Fuel and statistics *)

Lemma text_is_truthy (s : string) :
  JS.isNaN (JS.Number (JS.VStr s)) = true -> JS.truthy (JS.VStr s) = true.
Proof.
  intros Hnan. simpl. destruct (String.eqb s "") eqn:Hs; [|done].
  apply String.eqb_eq in Hs. subst s. discriminate Hnan.
Qed.

(** *** Sums of numbers that are not negative *)

Lemma shr_1_nonneg (r : shr_record) : 0 <= shr_m r -> 0 <= shr_m (shr_1 r).
Proof. destruct r as [[|[p|p|]|p] r s]; cbn; lia. Qed.

Lemma shr_fexp_nonneg (m e : Z) (l : location) :
  0 <= m -> 0 <= shr_m (shr_fexp JS.prec JS.emax m e l).1.
Proof.
  intros Hm. unfold shr_fexp, shr.
  assert (H0 : 0 <= shr_m (shr_record_of_loc m l)) by (by destruct l as [|[]]).
  destruct (fexp JS.prec JS.emax (Zdigits2 m + e) - e) as [|p|p]; cbn [fst]; try done.
  rewrite iter_pos_iter. apply Pos.iter_invariant; [|done].
  intros r. apply shr_1_nonneg.
Qed.

Lemma round_nearest_even_nonneg (mx : Z) (lx : location) :
  0 <= mx -> 0 <= round_nearest_even mx lx.
Proof. intros Hmx. destruct lx as [|[]]; cbn; try done; [destruct (Z.even mx)|]; lia. Qed.

(** Rounding keeps the sign and gives no [NaN]. *)
Lemma round_aux_sign (sx : bool) (mx ex : Z) (lx : location) :
  0 <= mx ->
  JS.isNaN (binary_round_aux JS.prec JS.emax sx mx ex lx) = false
  /\ JS.sign (binary_round_aux JS.prec JS.emax sx mx ex lx) = sx.
Proof.
  intros Hmx. unfold binary_round_aux.
  pose proof (shr_fexp_nonneg mx ex lx Hmx) as H1.
  destruct (shr_fexp JS.prec JS.emax mx ex lx) as [mrs' e']. cbn [fst] in H1.
  pose proof (shr_fexp_nonneg _ e' loc_Exact
                (round_nearest_even_nonneg _ (loc_of_shr_record mrs') H1)) as H2.
  destruct (shr_fexp JS.prec JS.emax _ e' loc_Exact) as [mrs'' e'']. cbn [fst] in H2.
  destruct (shr_m mrs'') as [|m|m]; [done| |lia].
  by destruct (e'' <=? JS.emax - JS.prec).
Qed.

Lemma round_sign (m : positive) (e : Z) :
  JS.isNaN (binary_round JS.prec JS.emax false m e) = false
  /\ JS.sign (binary_round JS.prec JS.emax false m e) = false.
Proof.
  unfold binary_round. destruct (shl_align m e _) as [mz ez]. by apply round_aux_sign.
Qed.

Lemma ofZ_sign (z : Z) :
  0 <= z -> JS.isNaN (JS.ofZ z) = false /\ JS.sign (JS.ofZ z) = false.
Proof. intros Hz. destruct z as [|m|m]; [done | apply round_sign | lia]. Qed.

Lemma add_sign (a b : JS.Num) :
  JS.isNaN a = false /\ JS.sign a = false ->
  JS.isNaN b = false /\ JS.sign b = false ->
  JS.isNaN (JS.add a b) = false /\ JS.sign (JS.add a b) = false.
Proof.
  destruct a as [[]|[]| |[] ma ea], b as [[]|[]| |[] mb eb];
    intros [? ?] [? ?]; try done.
  unfold JS.add, SFadd. cbn [cond_Zopp].
  change (Zpos ?x + Zpos ?y) with (Zpos (x + y)). apply round_sign.
Qed.

Lemma rounded_sum_sign (zs : list Z) :
  Forall (fun z => 0 <= z) zs ->
  JS.isNaN (FuelPolicy.rounded_sum zs) = false /\ JS.sign (FuelPolicy.rounded_sum zs) = false.
Proof.
  unfold FuelPolicy.rounded_sum. intros Hzs.
  generalize (ofZ_sign 0 (Z.le_refl 0)). generalize (JS.ofZ 0).
  induction Hzs as [|z zs Hz _ IH]; intros acc Hacc; [done|].
  cbn [fold_left]. apply IH, add_sign; [done | by apply ofZ_sign].
Qed.

(** X1.  The fuel of a trip is never [NaN]; for a [fuelAmount] that is a
    text and not a number it is not negative either. *)
Theorem fuel_is_a_number (trip : Obj) :
  JS.isNaN (fuelOf trip) = false
  /\ forall s, trip !! "fuelAmount" = Some (JS.VStr s) ->
       JS.isNaN (JS.Number (JS.VStr s)) = true ->
       JS.sign (fuelOf trip) = false.
Proof.
  assert (Htext : forall s, trip !! "fuelAmount" = Some (JS.VStr s) ->
            JS.isNaN (JS.Number (JS.VStr s)) = true ->
            JS.isNaN (fuelOf trip) = false /\ JS.sign (fuelOf trip) = false).
  { intros s Hget Hnan.
    rewrite (fuelOf_text trip s Hget (text_is_truthy s Hnan) Hnan).
    apply rounded_sum_sign, integers_nonneg. }
  split; [|intros s Hget Hnan; by apply (Htext s)].
  destruct (trip !! "fuelAmount") as [v|] eqn:Hget.
  - destruct (JS.truthy v) eqn:Ht, (JS.isNaN (JS.Number v)) eqn:Hnan.
    + destruct (match_receiver_is_string v Ht Hnan) as [s ->].
      by apply (Htext s).
    + unfold fuelOf, field. by rewrite Hget, Ht, Hnan.
    + unfold fuelOf, field. by rewrite Hget, Ht.
    + unfold fuelOf, field. by rewrite Hget, Ht.
  - unfold fuelOf, field. by rewrite Hget.
Qed.

Lemma fuel_is_a_number_witness :
  JS.isNaN (fuelOf Scenario.trip_long_run) = false
  /\ JS.sign (fuelOf Scenario.trip_long_run) = false.
Proof.
  destruct (fuel_is_a_number Scenario.trip_long_run) as [Hnan Htext].
  split; [exact Hnan|].
  apply (Htext "x 99999999999999999999"%string); vm_compute; reflexivity.
Defined.

Lemma add_NaN_r (a : JS.Num) : JS.add a JS.NaN = JS.NaN.
Proof. by destruct a as [[]|[]| |[] m e]. Qed.

Lemma sub_NaN_r (a : JS.Num) : JS.sub a JS.NaN = JS.NaN.
Proof. by destruct a as [[]|[]| |[] m e]. Qed.

Lemma fold_step_trip_amount_NaN (l : Coll) (acc : Totals) :
  totalTripAmount' acc = JS.NaN -> totalTripAmount' (fold_left step l acc) = JS.NaN.
Proof.
  revert acc. induction l as [|d l IH]; intros acc Hacc; [done|].
  simpl. apply IH. simpl. by rewrite Hacc.
Qed.

Lemma fold_step_expenses_NaN (l : Coll) (acc : Totals) :
  totalExpenses' acc = JS.NaN -> totalExpenses' (fold_left step l acc) = JS.NaN.
Proof.
  revert acc. induction l as [|d l IH]; intros acc Hacc; [done|].
  simpl. apply IH. simpl. by rewrite Hacc.
Qed.

Lemma fold_step_poisoned (l : Coll) (d : Doc) (acc : Totals) :
  d ∈ l ->
  (tripAmt d.2 = JS.NaN -> totalTripAmount' (fold_left step l acc) = JS.NaN)
  /\ (expenses d.2 = JS.NaN -> totalExpenses' (fold_left step l acc) = JS.NaN).
Proof.
  intros (l1 & l2 & ->)%list_elem_of_split. rewrite fold_left_app. cbn [fold_left].
  split; intros Hd.
  - apply fold_step_trip_amount_NaN. simpl. rewrite Hd. apply add_NaN_r.
  - apply fold_step_expenses_NaN. simpl. rewrite Hd. apply add_NaN_r.
Qed.

(** X2.  One visible trip whose [tripAmount] does not convert to a number
    makes [totalTripAmount] and [totalProfit] [NaN]; one whose tolls, parking
    charges or driver beta do not convert makes [totalExpenses] and
    [totalProfit] [NaN].  The count of the trips is not affected. *)
Theorem non_numeric_amount_poisons_stats (trips maintenances ads : Coll) (user : User)
    (d : Doc) :
  d ∈ trips ->
  trip_match user d = true ->
  exists s,
    (get_stats trips maintenances ads user).1 = respond 200 (BStats s)
    /\ totalTrips s = Z.of_nat (length (List.filter (trip_match user) trips))
    /\ (tripAmt d.2 = JS.NaN -> totalTripAmount s = JS.NaN /\ totalProfit s = JS.NaN)
    /\ (expenses d.2 = JS.NaN -> totalExpenses s = JS.NaN /\ totalProfit s = JS.NaN).
Proof.
  intros Hin Hmatch. eexists. split; [reflexivity|]. split; [reflexivity|].
  assert (Hvisible : d ∈ List.filter (trip_match user) trips).
  { apply list_elem_of_In, List.filter_In. split; [by apply list_elem_of_In|done]. }
  destruct (fold_step_poisoned _ d
              {| totalTripAmount' := JS.ofZ 0; totalExpenses' := JS.ofZ 0;
                 totalProfit' := JS.ofZ 0 |} Hvisible) as [Hamount Hexpenses].
  unfold computeStats. cbn [totalTripAmount totalExpenses totalProfit]. split.
  - intros Hd. by rewrite (Hamount Hd).
  - intros Hd. rewrite (Hexpenses Hd).
    change (JS.add (JS.add JS.NaN ?x) ?y) with JS.NaN. split; [done|].
    apply sub_NaN_r.
Qed.

Lemma non_numeric_amount_poisons_stats_witness :
  exists s,
    (get_stats [(Scenario.trip1, {[ "tripAmount" := JS.VStr "12,000" ]} : Obj)] [] []
       Scenario.admin).1 = respond 200 (BStats s)
    /\ totalTrips s = 1
    /\ totalTripAmount s = JS.NaN
    /\ totalProfit s = JS.NaN.
Proof.
  destruct (non_numeric_amount_poisons_stats
              [(Scenario.trip1, {[ "tripAmount" := JS.VStr "12,000" ]} : Obj)] [] []
              Scenario.admin (Scenario.trip1, {[ "tripAmount" := JS.VStr "12,000" ]}))
    as (s & Hs & Hcount & Hamount & _).
  - apply list_elem_of_here.
  - reflexivity.
  - exists s. destruct (Hamount eq_refl) as [H1 H2]. repeat split; assumption.
Defined.

Lemma trip_match_foreign (user : User) (d : Doc) :
  role user = "driver" -> d.2 !! "driverId" <> Some (JS.VStr (id user)) ->
  trip_match user d = false.
Proof.
  intros Hrole Hd. unfold trip_match. rewrite (is_role_true _ _ Hrole).
  rewrite (bool_decide_eq_false_2 _ Hd). apply andb_false_r.
Qed.

Lemma maintenance_match_foreign (user : User) (m : Doc) :
  role user = "driver" -> m.2 !! "driver" <> Some (JS.VStr (id user)) ->
  maintenance_match user m = false.
Proof.
  intros Hrole Hm. unfold maintenance_match. rewrite (is_role_true _ _ Hrole).
  by apply bool_decide_eq_false_2.
Qed.

(** X3.  The statistics of a driver do not depend on the trips and on the
    maintenance records of other drivers: with or without such a trip and
    such a record the answer is the same. *)
Theorem driver_stats_scope (before after mbefore mafter ads : Coll) (user : User)
    (d m : Doc) :
  role user = "driver" ->
  d.2 !! "driverId" <> Some (JS.VStr (id user)) ->
  m.2 !! "driver" <> Some (JS.VStr (id user)) ->
  (get_stats (before ++ d :: after) (mbefore ++ m :: mafter) ads user).1
  = (get_stats (before ++ after) (mbefore ++ mafter) ads user).1.
Proof.
  intros Hrole Hd Hm. unfold get_stats. cbn [fst].
  rewrite !List.filter_app. cbn [List.filter].
  by rewrite (trip_match_foreign _ _ Hrole Hd), (maintenance_match_foreign _ _ Hrole Hm).
Qed.

Lemma driver_stats_scope_witness :
  (get_stats Scenario.trips
     [(Scenario.trip3, {[ "driver" := JS.VStr Scenario.kiran;
                          "maintenanceCost" := JS.VNum (JS.ofZ 500) ]} : Obj)]
     [] Scenario.driver_ravi).1
  = (get_stats [(Scenario.trip2, Scenario.ravis_trip)] [] [] Scenario.driver_ravi).1.
Proof.
  apply (driver_stats_scope [] [(Scenario.trip2, Scenario.ravis_trip)] [] [] []
           Scenario.driver_ravi (Scenario.trip1, Scenario.kirans_trip)
           (Scenario.trip3, {[ "driver" := JS.VStr Scenario.kiran;
                               "maintenanceCost" := JS.VNum (JS.ofZ 500) ]})).
  - reflexivity.
  - vm_compute. discriminate.
  - vm_compute. discriminate.
Defined.

(** ** The listing *)

(** X4.  The rows of the listing are the trips of the collection that are
    not marked deleted and, for a driver, that have the driver's id as
    [driverId]; for any other role there is no condition on [driverId]. *)
Theorem listing_scope (sortRows : string -> Coll -> Coll) (trips : Coll) (user : User)
    (query : Query) (d : Doc) :
  (forall sort rows, sortRows sort rows ≡ₚ rows) ->
  d ∈ rows_of (body (get_trips sortRows trips user query).1)
  <-> d ∈ trips
      /\ d.2 !! "isDriverDeleted" <> Some (JS.VBool true)
      /\ (role user = "driver" -> d.2 !! "driverId" = Some (JS.VStr (id user))).
Proof.
  intros Hsort. unfold get_trips. cbn [fst body respond rows_of].
  rewrite Hsort, list_elem_of_In, List.filter_In, <- list_elem_of_In.
  unfold trip_match, is_role. rewrite andb_true_iff, bool_decide_eq_true.
  destruct (String.eqb_spec (role user) "driver") as [Hrole | Hrole].
  - rewrite bool_decide_eq_true. tauto.
  - tauto.
Qed.

Lemma listing_scope_witness :
  (Scenario.trip2, Scenario.ravis_trip)
  ∈ rows_of (body (get_trips Scenario.naturalOrder Scenario.trips Scenario.driver_ravi ∅).1)
  /\ (Scenario.trip1, Scenario.kirans_trip)
     ∉ rows_of (body (get_trips Scenario.naturalOrder Scenario.trips
                        Scenario.driver_ravi ∅).1).
Proof.
  split.
  - apply (listing_scope Scenario.naturalOrder Scenario.trips Scenario.driver_ravi ∅
             (Scenario.trip2, Scenario.ravis_trip) (fun _ rows => reflexivity rows)).
    split; [|split].
    + apply list_elem_of_further, list_elem_of_here.
    + vm_compute. discriminate.
    + reflexivity.
  - intros Hin.
    apply (listing_scope Scenario.naturalOrder Scenario.trips Scenario.driver_ravi ∅
             (Scenario.trip1, Scenario.kirans_trip) (fun _ rows => reflexivity rows))
      in Hin as (_ & _ & Hown).
    specialize (Hown eq_refl). vm_compute in Hown. discriminate Hown.
Defined.

(** X5.  The count of the statistics is the total of the listing: for the
    same caller and collection [totalTrips] equals [total], which is the
    number of the rows; the listing is always one page whose [limit] is its
    [total]. *)
Theorem stats_count_is_listing_total (sortRows : string -> Coll -> Coll)
    (trips maintenances ads : Coll) (user : User) (query : Query) :
  (forall sort rows, sortRows sort rows ≡ₚ rows) ->
  exists s total rows,
    (get_stats trips maintenances ads user).1 = respond 200 (BStats s)
    /\ (get_trips sortRows trips user query).1 = respond 200 (BRows total 1 total rows)
    /\ totalTrips s = total
    /\ total = Z.of_nat (length rows).
Proof.
  intros Hsort. eexists _, _, _. split; [reflexivity|]. split; [reflexivity|].
  split; [|reflexivity].
  unfold computeStats. cbn [totalTrips]. by rewrite Hsort.
Qed.

Lemma stats_count_is_listing_total_witness :
  exists s total rows,
    (get_stats Scenario.trips_after_delete [] [] Scenario.admin).1
    = respond 200 (BStats s)
    /\ (get_trips Scenario.naturalOrder Scenario.trips_after_delete Scenario.admin ∅).1
       = respond 200 (BRows total 1 total rows)
    /\ totalTrips s = total
    /\ total = Z.of_nat (length rows).
Proof.
  exact (stats_count_is_listing_total Scenario.naturalOrder Scenario.trips_after_delete
           [] [] Scenario.admin ∅ (fun _ rows => reflexivity rows)).
Defined.

(** ** Reading one trip *)

(** X6.  An existing trip is answered with 200 exactly when the caller is
    not a driver, or is the driver the trip belongs to and the trip is not
    marked deleted or the query has [includeDeleted=true]. *)
Theorem single_fetch_visibility (trips : Coll) (user : User) (tid : string) (trip : Obj)
    (query : Query) :
  findById trips tid = Some trip ->
  (status (get_trip trips user tid query).1 = 200
   <-> role user <> "driver"
       \/ (JS.String (field trip "driverId") = id user
           /\ (JS.truthy (field trip "isDriverDeleted") = false
               \/ query !! "includeDeleted" = Some "true"%string)))
  /\ (status (get_trip trips user tid query).1 = 200 ->
      get_trip trips user tid query = (respond 200 (BTrip (tid, trip)), trips)).
Proof.
  intros Hfind. unfold get_trip, is_role, not_owner, query_true. rewrite Hfind.
  cbn [JS.String].
  destruct (String.eqb_spec (role user) "driver") as [Hrole | Hrole];
    destruct (String.eqb_spec (JS.String (field trip "driverId")) (id user)) as [Hown | Hown];
    destruct (JS.truthy (field trip "isDriverDeleted"));
    destruct (bool_decide_reflect (query !! "includeDeleted" = Some "true"%string))
      as [Hq | Hq];
    cbn; (split; [split|]); try done; try tauto; try (intros _; tauto);
    intros [? | [? [? | ?]]]; done.
Qed.

Lemma single_fetch_visibility_witness :
  status (get_trip Scenario.trips_after_delete Scenario.driver_ravi Scenario.trip2 ∅).1
  <> 200
  /\ status (get_trip Scenario.trips_after_delete Scenario.driver_ravi Scenario.trip2
               {[ "includeDeleted" := "true"%string ]}).1 = 200
  /\ status (get_trip Scenario.trips_after_delete Scenario.admin Scenario.trip2 ∅).1 = 200.
Proof.
  split; [|split].
  - intros H200.
    apply (single_fetch_visibility Scenario.trips_after_delete Scenario.driver_ravi
             Scenario.trip2 Scenario.ravis_deleted_trip ∅ eq_refl) in H200
      as [Hrole | [_ [Hdel | Hq]]].
    + by apply Hrole.
    + discriminate Hdel.
    + discriminate Hq.
  - apply (single_fetch_visibility Scenario.trips_after_delete Scenario.driver_ravi
             Scenario.trip2 Scenario.ravis_deleted_trip
             {[ "includeDeleted" := "true"%string ]} eq_refl).
    right. split; [reflexivity | right; reflexivity].
  - apply (single_fetch_visibility Scenario.trips_after_delete Scenario.admin
             Scenario.trip2 Scenario.ravis_deleted_trip ∅ eq_refl).
    left. discriminate.
Defined.

(** ** Updates *)

Lemma strip_for_driver_lookup (updates : Obj) (k : string) :
  k ∈ ["isDriverDeleted"; "driverDeletedAt"; "driverDeletedBy"; "createdBy";
       "createdByRole"]%string ->
  strip_for_driver updates !! k = None.
Proof.
  intros Hk. unfold strip_for_driver.
  repeat (apply elem_of_cons in Hk as [-> | Hk]; [by simplify_map_eq|]).
  by apply elem_of_nil in Hk.
Qed.

(** X7.  An update by the driver who owns the trip, whatever its payload and
    whether the trip is marked deleted or not, is answered 400 with nothing
    stored or 200 with a stored trip whose [isDriverDeleted],
    [driverDeletedAt], [driverDeletedBy], [createdBy] and [createdByRole]
    are those the trip had. *)
Theorem driver_update_keeps_server_fields (attachRefs : Obj -> Result Obj) (trips : Coll)
    (user : User) (tid : string) (trip reqBody : Obj) :
  role user = "driver" ->
  findById trips tid = Some trip ->
  JS.String (field trip "driverId") = id user ->
  (exists m, put_trip attachRefs trips user tid reqBody = (respond 400 (BMessage m), trips))
  \/ (exists trip',
        put_trip attachRefs trips user tid reqBody
        = (respond 200 (BTrip (tid, trip')), save trips tid trip')
        /\ findById (save trips tid trip') tid = Some trip'
        /\ forall k,
             k ∈ ["isDriverDeleted"; "driverDeletedAt"; "driverDeletedBy"; "createdBy";
                  "createdByRole"]%string ->
             trip' !! k = trip !! k).
Proof.
  intros Hrole Hfind Hown. unfold put_trip.
  rewrite Hfind, (is_role_true _ _ Hrole), (not_owner_false _ _ Hown). cbn [andb].
  destruct (if JS.truthy (field reqBody "driverId") || JS.truthy (field reqBody "vehicleId")
            then attachRefs reqBody else Ok reqBody) as [updates | m].
  - right. eexists. split; [reflexivity|]. split.
    + by apply (findById_save _ _ trip).
    + intros k Hk. rewrite lookup_union_r; [done|]. by apply strip_for_driver_lookup.
  - left. eauto.
Qed.

Lemma driver_update_keeps_server_fields_witness :
  exists trip',
    put_trip Scenario.attachRefs Scenario.trips_after_delete Scenario.driver_ravi
      Scenario.trip2
      {[ "isDriverDeleted" := JS.VBool false; "fromLocation" := JS.VStr "Tenali" ]}
    = (respond 200 (BTrip (Scenario.trip2, trip')),
       save Scenario.trips_after_delete Scenario.trip2 trip')
    /\ trip' !! "isDriverDeleted" = Some (JS.VBool true).
Proof.
  destruct (driver_update_keeps_server_fields Scenario.attachRefs
              Scenario.trips_after_delete Scenario.driver_ravi Scenario.trip2
              Scenario.ravis_deleted_trip
              {[ "isDriverDeleted" := JS.VBool false; "fromLocation" := JS.VStr "Tenali" ]}
              eq_refl eq_refl eq_refl)
    as [(m & Hfail) | (trip' & Hput & _ & Hkeep)].
  - exfalso.
    assert (Hst : status (put_trip Scenario.attachRefs Scenario.trips_after_delete
                            Scenario.driver_ravi Scenario.trip2
                            {[ "isDriverDeleted" := JS.VBool false;
                               "fromLocation" := JS.VStr "Tenali" ]}).1 = 200)
      by (vm_compute; reflexivity).
    rewrite Hfail in Hst. discriminate Hst.
  - exists trip'. split; [exact Hput|].
    rewrite (Hkeep "isDriverDeleted"%string); [reflexivity | apply list_elem_of_here].
Defined.

(** X8.  An update by a caller who is not a driver stores the payload as it
    is: with [isDriverDeleted] true in a payload that names no driver and no
    vehicle, the trip is stored as deleted and leaves every listing, while
    [driverDeletedAt] stays as it was unless the payload sets it. *)
Theorem update_can_retire_a_trip (attachRefs : Obj -> Result Obj)
    (sortRows : string -> Coll -> Coll) (trips : Coll) (user viewer : User)
    (tid : string) (trip reqBody : Obj) (query : Query) :
  (forall sort rows, sortRows sort rows ≡ₚ rows) ->
  role user <> "driver" ->
  findById trips tid = Some trip ->
  JS.truthy (field reqBody "driverId") = false ->
  JS.truthy (field reqBody "vehicleId") = false ->
  reqBody !! "isDriverDeleted" = Some (JS.VBool true) ->
  put_trip attachRefs trips user tid reqBody
  = (respond 200 (BTrip (tid, reqBody ∪ trip)), save trips tid (reqBody ∪ trip))
  /\ findById (save trips tid (reqBody ∪ trip)) tid = Some (reqBody ∪ trip)
  /\ ((tid, reqBody ∪ trip)
      ∉ rows_of (body (get_trips sortRows (save trips tid (reqBody ∪ trip)) viewer
                         query).1))
  /\ (reqBody !! "driverDeletedAt" = None ->
      (reqBody ∪ trip) !! "driverDeletedAt" = trip !! "driverDeletedAt").
Proof.
  intros Hsort Hrole Hfind Hd Hv Hdel. unfold put_trip.
  rewrite Hfind, (is_role_false _ _ Hrole), Hd, Hv. cbn [andb orb].
  split; [done|]. split; [by apply (findById_save _ _ trip)|]. split.
  - unfold get_trips. cbn [fst body respond rows_of]. rewrite Hsort.
    intros [_ Hmatch]%list_elem_of_In%List.filter_In.
    rewrite trip_match_deleted in Hmatch; [done|].
    cbn [snd]. by apply lookup_union_Some_l.
  - intros Hat. by apply lookup_union_r.
Qed.

Lemma update_can_retire_a_trip_witness :
  (Scenario.trip2, ({[ "isDriverDeleted" := JS.VBool true ]} : Obj) ∪ Scenario.ravis_trip)
  ∉ rows_of (body (get_trips Scenario.naturalOrder
                     (put_trip Scenario.attachRefs Scenario.trips Scenario.admin
                        Scenario.trip2 {[ "isDriverDeleted" := JS.VBool true ]}).2
                     Scenario.driver_ravi ∅).1).
Proof.
  destruct (update_can_retire_a_trip Scenario.attachRefs Scenario.naturalOrder
              Scenario.trips Scenario.admin Scenario.driver_ravi Scenario.trip2
              Scenario.ravis_trip {[ "isDriverDeleted" := JS.VBool true ]} ∅
              (fun _ rows => reflexivity rows))
    as (Hput & _ & Hhidden & _); try reflexivity.
  - discriminate.
  - rewrite Hput. exact Hhidden.
Defined.

(** ** Failing references *)

Lemma no_vehicle_fails (drivers : gmap string Refs.Driver) (p : Obj) :
  JS.truthy (field p "vehicleId") = true ->
  exists m, Refs.attachRefs drivers ∅ p = Throw m.
Proof.
  intros Hv. unfold Refs.attachRefs. rewrite Hv.
  destruct (JS.truthy (field p "driverId"));
    [destruct (drivers !! JS.String (field p "driverId"))|];
    cbn; rewrite ?lookup_empty; eauto.
Qed.

(** X9.  When the resolver rejects the payloads that name a vehicle, a
    create by an admin or a driver and an update by a caller who may update
    the trip, with such a payload, are answered 400 and store nothing. *)
Theorem failed_reference_stores_nothing (attachRefs : Obj -> Result Obj) (trips : Coll)
    (user : User) (tid : string) (trip reqBody : Obj) (newId : string) (now : Z) :
  (forall p, JS.truthy (field p "vehicleId") = true -> exists m, attachRefs p = Throw m) ->
  JS.truthy (field reqBody "vehicleId") = true ->
  (role user = "admin" \/ role user = "driver" ->
   exists m, post_trips attachRefs trips user reqBody newId now
             = (respond 400 (BMessage m), trips))
  /\ (findById trips tid = Some trip ->
      role user <> "driver" \/ JS.String (field trip "driverId") = id user ->
      exists m, put_trip attachRefs trips user tid reqBody
                = (respond 400 (BMessage m), trips)).
Proof.
  intros Hfail Hv. split.
  - intros Hrole. unfold post_trips.
    set (data := <["createdBy" := JS.VStr (id user)]>
                   (<["createdByRole" := JS.VStr (role user)]> reqBody)).
    assert (Hdata : JS.truthy (field data "vehicleId") = true).
    { replace (field data "vehicleId") with (field reqBody "vehicleId"); [done|].
      unfold field, data. by simplify_map_eq. }
    destruct Hrole as [Hrole | Hrole].
    + rewrite (is_role_true _ _ Hrole), Hdata, orb_true_r.
      destruct (Hfail data Hdata) as [m ->]. cbn. eauto.
    + rewrite (is_role_false user "admin") by (rewrite Hrole; discriminate).
      rewrite (is_role_true _ _ Hrole). cbn [mbind Result_bind].
      set (data' := <["driverId" := JS.VStr (id user)]> data).
      assert (Hdata' : JS.truthy (field data' "vehicleId") = true).
      { replace (field data' "vehicleId") with (field data "vehicleId"); [done|].
        unfold field, data'. by simplify_map_eq. }
      rewrite Hdata'.
      destruct (Hfail (<["driverId" := field data' "driverId"]> data')) as [m ->].
      * replace (field (<["driverId" := field data' "driverId"]> data') "vehicleId")
          with (field data' "vehicleId"); [done|].
        unfold field. by simplify_map_eq.
      * cbn. eauto.
  - intros Hfind Hmay. unfold put_trip. rewrite Hfind, Hv, orb_true_r.
    assert (Hguard : is_role user "driver" && not_owner trip user = false).
    { destruct Hmay as [Hrole | Hown].
      - by rewrite is_role_false.
      - rewrite (not_owner_false _ _ Hown). apply andb_false_r. }
    rewrite Hguard. destruct (Hfail reqBody Hv) as [m ->]. eauto.
Qed.

Lemma failed_reference_stores_nothing_witness :
  (exists m, post_trips (Refs.attachRefs Scenario.drivers ∅) Scenario.trips
               Scenario.driver_ravi Scenario.create_body Scenario.trip3 0
             = (respond 400 (BMessage m), Scenario.trips))
  /\ (exists m, put_trip (Refs.attachRefs Scenario.drivers ∅) Scenario.trips
                  Scenario.admin Scenario.trip2 Scenario.create_body
                = (respond 400 (BMessage m), Scenario.trips)).
Proof.
  destruct (failed_reference_stores_nothing (Refs.attachRefs Scenario.drivers ∅)
              Scenario.trips Scenario.driver_ravi Scenario.trip2 Scenario.ravis_trip
              Scenario.create_body Scenario.trip3 0
              (no_vehicle_fails Scenario.drivers) eq_refl) as [Hpost _].
  destruct (failed_reference_stores_nothing (Refs.attachRefs Scenario.drivers ∅)
              Scenario.trips Scenario.admin Scenario.trip2 Scenario.ravis_trip
              Scenario.create_body Scenario.trip3 0
              (no_vehicle_fails Scenario.drivers) eq_refl) as [_ Hput].
  split.
  - apply Hpost. right. reflexivity.
  - apply Hput; [reflexivity | left; discriminate].
Defined.

(** ** Deleting for good *)

Lemma findById_None (c : Coll) (i : string) : findById c i = None <-> i ∉ map fst c.
Proof.
  induction c as [|[j d] c IH]; simpl.
  - split; [intros _; apply not_elem_of_nil | done].
  - rewrite not_elem_of_cons. destruct (String.eqb_spec j i) as [-> | Hne].
    + split; [discriminate | by intros [? _]].
    + rewrite IH. split; [by intros ? | by intros [_ ?]].
Qed.

Lemma findById_delete_ne (c : Coll) (i j : string) :
  j <> i -> findById (findByIdAndDelete c i) j = findById c j.
Proof.
  intros Hne. induction c as [|[k d] c IH]; simpl; [done|].
  destruct (String.eqb_spec k i) as [-> | Hk]; simpl.
  - by rewrite (proj2 (String.eqb_neq i j)).
  - by rewrite IH.
Qed.

Lemma findById_delete_eq (c : Coll) (i : string) :
  NoDup (map fst c) -> findById (findByIdAndDelete c i) i = None.
Proof.
  induction c as [|[k d] c IH]; simpl; [done|].
  intros [Hk Hc]%NoDup_cons. destruct (String.eqb_spec k i) as [-> | Hne]; simpl.
  - by apply findById_None.
  - rewrite (proj2 (String.eqb_neq k i)) by done. by apply IH.
Qed.

Lemma length_delete (c : Coll) (i : string) (d : Obj) :
  findById c i = Some d -> length c = S (length (findByIdAndDelete c i)).
Proof.
  induction c as [|[k d0] c IH]; simpl; [discriminate|].
  destruct (String.eqb k i); simpl; [done|]. intros H. by rewrite IH.
Qed.

Lemma delete_ids_sublist (c : Coll) (i : string) :
  map fst (findByIdAndDelete c i) `sublist_of` map fst c.
Proof.
  induction c as [|[k d0] c IH]; simpl; [done|].
  destruct (String.eqb k i); simpl.
  - by apply sublist_cons.
  - by apply sublist_skip.
Qed.

(** X10.  A delete by a caller who is not a driver, with [hard=true],
    removes the trip and nothing else: the id is no longer found, every
    other id is found as before, the collection has one document less, and
    afterwards the fetch of the trip by anyone and its restore by an admin
    are answered 404. *)
Theorem hard_delete_removes (trips : Coll) (user : User) (tid : string) (trip : Obj)
    (query : Query) (now : Z) :
  NoDup (map fst trips) ->
  role user <> "driver" ->
  query !! "hard" = Some "true"%string ->
  findById trips tid = Some trip ->
  exists trips',
    delete_trip trips user tid query now
    = (respond 200 (BMessage "Trip permanently deleted by admin"), trips')
    /\ findById trips' tid = None
    /\ (forall other, other <> tid -> findById trips' other = findById trips other)
    /\ length trips = S (length trips')
    /\ (forall viewer q,
          get_trip trips' viewer tid q = (respond 404 (BMessage "Trip not found"), trips'))
    /\ (forall caller, role caller = "admin" ->
          restore_trip trips' caller tid
          = (respond 404 (BMessage "Trip not found"), trips')).
Proof.
  intros Hids Hrole Hhard Hfind. exists (findByIdAndDelete trips tid).
  pose proof (findById_delete_eq trips tid Hids) as Hgone.
  unfold delete_trip, query_true.
  rewrite Hfind, (is_role_false _ _ Hrole), (bool_decide_eq_true_2 _ Hhard).
  repeat split.
  - done.
  - intros other Hne. by apply findById_delete_ne.
  - by apply (length_delete _ _ trip).
  - intros viewer q. unfold get_trip. by rewrite Hgone.
  - intros caller Hadmin. unfold restore_trip.
    by rewrite (is_role_true _ _ Hadmin), Hgone.
Qed.

Lemma hard_delete_removes_witness :
  exists trips',
    delete_trip Scenario.trips Scenario.admin Scenario.trip2 Scenario.hard 0
    = (respond 200 (BMessage "Trip permanently deleted by admin"), trips')
    /\ findById trips' Scenario.trip2 = None
    /\ length Scenario.trips = S (length trips').
Proof.
  destruct (hard_delete_removes Scenario.trips Scenario.admin Scenario.trip2
              Scenario.ravis_trip Scenario.hard 0)
    as (trips' & Hdel & Hgone & _ & Hlen & _).
  - apply (bool_decide_unpack _). vm_compute. exact I.
  - discriminate.
  - reflexivity.
  - reflexivity.
  - exists trips'. repeat split; assumption.
Defined.

(** X11.  A delete by a caller who is not a driver, without [hard=true], of
    a trip that is not marked deleted stores the trip with [isDriverDeleted]
    true and [driverDeletedAt] the time of the request; every other field,
    [driverDeletedBy] among them, is left as it was. *)
Theorem admin_soft_delete_marks_trip (trips : Coll) (user : User) (tid : string)
    (trip : Obj) (query : Query) (now : Z) :
  role user <> "driver" ->
  query !! "hard" <> Some "true"%string ->
  findById trips tid = Some trip ->
  JS.truthy (field trip "isDriverDeleted") = false ->
  exists trip',
    delete_trip trips user tid query now
    = (respond 200 (BMessageTrip "Trip soft-deleted by admin" (tid, trip')),
       save trips tid trip')
    /\ findById (save trips tid trip') tid = Some trip'
    /\ trip' !! "isDriverDeleted" = Some (JS.VBool true)
    /\ trip' !! "driverDeletedAt" = Some (JS.VNum (JS.ofZ now))
    /\ (forall k, k <> "isDriverDeleted" -> k <> "driverDeletedAt" ->
          trip' !! k = trip !! k).
Proof.
  intros Hrole Hsoft Hfind Hactive. unfold delete_trip, query_true.
  rewrite Hfind, (is_role_false _ _ Hrole), (bool_decide_eq_false_2 _ Hsoft), Hactive.
  cbn [negb]. eexists. split; [reflexivity|]. repeat split.
  - by apply (findById_save _ _ trip).
  - by simplify_map_eq.
  - by simplify_map_eq.
  - intros k H1 H2. by simplify_map_eq.
Qed.

Lemma admin_soft_delete_marks_trip_witness :
  exists trip',
    delete_trip Scenario.trips Scenario.admin Scenario.trip2 ∅ 1700000000000
    = (respond 200 (BMessageTrip "Trip soft-deleted by admin" (Scenario.trip2, trip')),
       save Scenario.trips Scenario.trip2 trip')
    /\ trip' !! "isDriverDeleted" = Some (JS.VBool true)
    /\ trip' !! "driverDeletedBy" = None.
Proof.
  destruct (admin_soft_delete_marks_trip Scenario.trips Scenario.admin Scenario.trip2
              Scenario.ravis_trip ∅ 1700000000000)
    as (trip' & Hdel & _ & Hflag & _ & Hframe); try done.
  exists trip'. split; [exact Hdel|]. split; [exact Hflag|].
  rewrite Hframe; [reflexivity | discriminate | discriminate].
Defined.

(** ** Delete, then restore *)

(** X12.  After the driver who owns a trip deletes it and an admin restores
    it, the trip has [isDriverDeleted] false and [driverDeletedAt] and
    [driverDeletedBy] null, its other fields are those it had before the
    delete, and the driver, who got 404 for it in between, reads it again. *)
Theorem restore_undoes_delete (trips : Coll) (driver admin : User) (tid : string)
    (trip : Obj) (query : Query) (now : Z) :
  role driver = "driver" ->
  role admin = "admin" ->
  findById trips tid = Some trip ->
  JS.String (field trip "driverId") = id driver ->
  let deleted := (delete_trip trips driver tid query now).2 in
  let restored := (restore_trip deleted admin tid).2 in
  exists trip',
    findById restored tid = Some trip'
    /\ trip' !! "isDriverDeleted" = Some (JS.VBool false)
    /\ trip' !! "driverDeletedAt" = Some JS.VNull
    /\ trip' !! "driverDeletedBy" = Some JS.VNull
    /\ (forall k, k <> "isDriverDeleted" -> k <> "driverDeletedAt" ->
          k <> "driverDeletedBy" -> trip' !! k = trip !! k)
    /\ get_trip deleted driver tid ∅ = (respond 404 (BMessage "Trip not found"), deleted)
    /\ get_trip restored driver tid ∅ = (respond 200 (BTrip (tid, trip')), restored).
Proof.
  intros Hdriver Hadmin Hfind Hown. cbv zeta.
  assert (Hdeleted : exists gone,
    findById (delete_trip trips driver tid query now).2 tid = Some gone
    /\ JS.truthy (field gone "isDriverDeleted") = true
    /\ (forall k, k <> "isDriverDeleted" -> k <> "driverDeletedAt" ->
          k <> "driverDeletedBy" -> gone !! k = trip !! k)).
  { unfold delete_trip.
    rewrite Hfind, (is_role_true _ _ Hdriver), (not_owner_false _ _ Hown).
    destruct (JS.truthy (field trip "isDriverDeleted")) eqn:Hdel; cbn [negb snd].
    - eauto.
    - eexists. split; [by apply (findById_save _ _ trip)|]. split.
      + unfold field. by simplify_map_eq.
      + intros k H1 H2 H3. by simplify_map_eq. }
  destruct Hdeleted as (gone & Hgone & Hflag & Hframe).
  set (deleted := (delete_trip trips driver tid query now).2) in *.
  assert (Hid : field gone "driverId" = field trip "driverId").
  { unfold field. by rewrite Hframe. }
  unfold restore_trip. rewrite (is_role_true _ _ Hadmin), Hgone. cbn [negb snd].
  eexists. split; [by apply (findById_save _ _ gone)|].
  split; [by simplify_map_eq|]. split; [by simplify_map_eq|].
  split; [by simplify_map_eq|]. split.
  - intros k H1 H2 H3. rewrite <- Hframe by done. by simplify_map_eq.
  - split.
    + unfold get_trip, query_true.
      rewrite Hgone, (is_role_true _ _ Hdriver), Hflag, not_owner_false by by rewrite Hid.
      by rewrite bool_decide_eq_false_2.
    + unfold get_trip. rewrite (findById_save _ _ gone) by done.
      rewrite (is_role_true _ _ Hdriver), not_owner_false.
      * unfold field. by simplify_map_eq.
      * rewrite <- Hown, <- Hid. unfold field. by simplify_map_eq.
Qed.

Lemma restore_undoes_delete_witness :
  exists trip',
    findById (restore_trip (delete_trip Scenario.trips Scenario.driver_ravi Scenario.trip2
                              Scenario.hard 0).2 Scenario.admin Scenario.trip2).2
      Scenario.trip2 = Some trip'
    /\ trip' !! "isDriverDeleted" = Some (JS.VBool false)
    /\ trip' !! "fromLocation" = Some (JS.VStr "Vijayawada").
Proof.
  destruct (restore_undoes_delete Scenario.trips Scenario.driver_ravi Scenario.admin
              Scenario.trip2 Scenario.ravis_trip Scenario.hard 0
              eq_refl eq_refl eq_refl eq_refl)
    as (trip' & Hfind & Hflag & _ & _ & Hframe & _).
  exists trip'. split; [exact Hfind|]. split; [exact Hflag|].
  rewrite Hframe; [reflexivity | discriminate | discriminate | discriminate].
Defined.

(** ** The ids of the collection *)

Lemma post_trips_store (attachRefs : Obj -> Result Obj) (trips : Coll) (user : User)
    (reqBody : Obj) (newId : string) (now : Z) :
  (exists m, post_trips attachRefs trips user reqBody newId now
             = (respond 400 (BMessage m), trips))
  \/ (exists data,
        findById trips newId = None
        /\ post_trips attachRefs trips user reqBody newId now
           = (respond 201 (BTrip (new_Trip newId now data)),
              trips ++ [new_Trip newId now data])).
Proof.
  unfold post_trips, save_new. cbv zeta. cbn [fst new_Trip].
  repeat (cbn [mbind Result_bind];
          match goal with
          | |- context [if is_role ?u ?r then _ else _] => destruct (is_role u r)
          | |- context [if JS.truthy ?v || JS.truthy ?w then _ else _] =>
              destruct (JS.truthy v || JS.truthy w)
          | |- context [if JS.truthy ?v then _ else _] => destruct (JS.truthy v)
          | |- context [attachRefs ?p] => destruct (attachRefs p)
          end);
    cbn [mbind Result_bind];
    try (left; eexists; reflexivity);
    (destruct (findById trips newId) eqn:Hfree; cbn [mbind Result_bind];
     [left; eexists; reflexivity | right; eexists; split; [reflexivity | reflexivity]]).
Qed.

(** X13.  The ids of the collection stay distinct: whatever the request, the
    collection a create, an update, a delete or a restore leaves has no two
    documents with the same id when the collection it found had none. *)
Theorem ids_stay_unique (attachRefs : Obj -> Result Obj) (trips : Coll) (user : User)
    (tid : string) (reqBody : Obj) (query : Query) (newId : string) (now : Z) :
  NoDup (map fst trips) ->
  NoDup (map fst (post_trips attachRefs trips user reqBody newId now).2)
  /\ NoDup (map fst (put_trip attachRefs trips user tid reqBody).2)
  /\ NoDup (map fst (delete_trip trips user tid query now).2)
  /\ NoDup (map fst (restore_trip trips user tid).2).
Proof.
  intros Hids. repeat split.
  - destruct (post_trips_store attachRefs trips user reqBody newId now)
      as [(m & ->) | (data & Hfree & ->)]; [done|].
    cbn [snd new_Trip]. rewrite map_app. cbn [map fst].
    apply NoDup_app. split; [done|]. split; [|apply NoDup_singleton].
    intros i Hi ->%list_elem_of_singleton. by apply findById_None in Hfree.
  - unfold put_trip.
    repeat match goal with
           | |- context [match ?x with _ => _ end] => destruct x
           end; cbn [snd]; by rewrite ?save_ids.
  - unfold delete_trip.
    repeat match goal with
           | |- context [match ?x with _ => _ end] => destruct x
           end; cbn [snd]; rewrite ?save_ids; try done;
      by eapply sublist_NoDup; [|apply delete_ids_sublist].
  - unfold restore_trip.
    repeat match goal with
           | |- context [match ?x with _ => _ end] => destruct x
           end; cbn [snd]; by rewrite ?save_ids.
Qed.

Lemma ids_stay_unique_witness :
  NoDup (map fst (post_trips Scenario.attachRefs Scenario.trips Scenario.driver_ravi
                    Scenario.create_body Scenario.trip3 0).2)
  /\ NoDup (map fst (delete_trip Scenario.trips Scenario.admin Scenario.trip1
                       Scenario.hard 0).2).
Proof.
  assert (Hids : NoDup (map fst Scenario.trips)).
  { apply (bool_decide_unpack _). vm_compute. exact I. }
  split.
  - apply (ids_stay_unique Scenario.attachRefs Scenario.trips Scenario.driver_ravi
             Scenario.trip1 Scenario.create_body Scenario.hard Scenario.trip3 0 Hids).
  - apply (ids_stay_unique Scenario.attachRefs Scenario.trips Scenario.admin
             Scenario.trip1 Scenario.create_body Scenario.hard Scenario.trip3 0 Hids).
Defined.

(** ** What a create stores *)

Lemma attachRefs_keeps (drivers : gmap string Refs.Driver)
    (vehicles : gmap string Refs.Vehicle) (p p' : Obj) (k : string) :
  k ∉ ["driverName"; "driverNumber"; "vehicleType"]%string ->
  Refs.attachRefs drivers vehicles p = Ok p' -> p' !! k = p !! k.
Proof.
  intros Hk.
  assert (k <> "driverName"%string /\ k <> "driverNumber"%string
          /\ k <> "vehicleType"%string) as (H1 & H2 & H3).
  { repeat split; intros ->; apply Hk; set_solver. }
  unfold Refs.attachRefs.
  destruct (JS.truthy (field p "driverId"));
    [destruct (drivers !! JS.String (field p "driverId"))|];
    cbn; try discriminate;
    (destruct (JS.truthy (field p "vehicleId"));
     [destruct (vehicles !! JS.String (field p "vehicleId"))|]);
    try discriminate; intros [= <-]; by simplify_map_eq.
Qed.



(** X15.  A trip a driver has created with a payload that has no
    [isDriverDeleted] is read back by that driver under its id and is a row
    of the driver's listing, for a resolver that leaves [driverId] and
    [isDriverDeleted] alone. *)
Theorem created_trip_is_readable (attachRefs : Obj -> Result Obj)
    (sortRows : string -> Coll -> Coll) (trips trips' : Coll) (user : User)
    (reqBody : Obj) (newId : string) (now : Z) (trip : Obj) (query : Query) :
  (forall sort rows, sortRows sort rows ≡ₚ rows) ->
  (forall p p' k, k ∈ ["driverId"; "isDriverDeleted"]%string ->
     attachRefs p = Ok p' -> p' !! k = p !! k) ->
  role user = "driver" ->
  reqBody !! "isDriverDeleted" = None ->
  post_trips attachRefs trips user reqBody newId now
  = (respond 201 (BTrip (newId, trip)), trips') ->
  get_trip trips' user newId query = (respond 200 (BTrip (newId, trip)), trips')
  /\ (newId, trip) ∈ rows_of (body (get_trips sortRows trips' user query).1).
Proof.
  intros Hsort Hkeep Hrole Hnone.
  assert (Hid : forall p p', attachRefs p = Ok p' -> p' !! "driverId" = p !! "driverId").
  { intros p p'. apply Hkeep. set_solver. }
  assert (Hdel : forall p p', attachRefs p = Ok p' ->
            p' !! "isDriverDeleted" = p !! "isDriverDeleted").
  { intros p p'. apply Hkeep. set_solver. }
  assert (Hadmin : is_role user "admin" = false).
  { apply is_role_false. rewrite Hrole. discriminate. }
  unfold post_trips. rewrite Hadmin, (is_role_true _ _ Hrole). cbn [mbind Result_bind].
  set (data := <["driverId" := JS.VStr (id user)]>
                 (<["createdBy" := JS.VStr (id user)]>
                    (<["createdByRole" := JS.VStr (role user)]> reqBody))).
  assert (Hstored : forall d : Obj,
            d !! "driverId" = Some (JS.VStr (id user)) ->
            d !! "isDriverDeleted" = None ->
            match (save_new trips (new_Trip newId now d) ≫=
                     (fun trips' => Ok (respond 201 (BTrip (new_Trip newId now d)), trips')))
            with
            | Ok r => r
            | Throw m => (respond 400 (BMessage m), trips)
            end = (respond 201 (BTrip (newId, trip)), trips') ->
            findById trips' newId = Some trip
            /\ trip !! "driverId" = Some (JS.VStr (id user))
            /\ trip !! "isDriverDeleted" = Some (JS.VBool false)).
  { intros d Hd1 Hd2. unfold save_new, new_Trip, respond. cbn [fst].
    destruct (findById trips newId) eqn:Hfree; cbn [mbind Result_bind]; [discriminate|].
    intros [= <- <-]. split; [by apply findById_app_new|]. split.
    - by apply lookup_union_Some_l.
    - rewrite lookup_union_r by done. by simplify_map_eq. }
  assert (Hread : findById trips' newId = Some trip ->
            trip !! "driverId" = Some (JS.VStr (id user)) ->
            trip !! "isDriverDeleted" = Some (JS.VBool false) ->
            get_trip trips' user newId query = (respond 200 (BTrip (newId, trip)), trips')
            /\ (newId, trip) ∈ rows_of (body (get_trips sortRows trips' user query).1)).
  { intros Hfind H1 H2. split.
    - unfold get_trip, not_owner, field.
      rewrite Hfind, (is_role_true _ _ Hrole), H1, H2. cbn [JS.String JS.truthy].
      by rewrite String.eqb_refl.
    - unfold get_trips. cbn [fst body respond rows_of].
      rewrite Hsort, list_elem_of_In, List.filter_In, <- list_elem_of_In. split.
      + apply list_elem_of_lookup. clear -Hfind.
        induction trips' as [|[j d] c IH]; simpl in Hfind; [discriminate|].
        destruct (String.eqb_spec j newId) as [-> | Hne].
        * injection Hfind as ->. by exists 0%nat.
        * destruct (IH Hfind) as [i Hi]. by exists (S i).
      + unfold trip_match. cbn [snd]. rewrite (is_role_true _ _ Hrole), H1, H2.
        by rewrite bool_decide_eq_true_2, bool_decide_eq_true_2. }
  destruct (JS.truthy (field data "vehicleId")).
  - destruct (attachRefs (<["driverId" := field data "driverId"]> data)) as [d|m] eqn:Hrefs;
      cbn [mbind Result_bind]; [|discriminate].
    intros Hpost. apply Hstored in Hpost as (H0 & H1 & H2); [by apply Hread| |].
    + rewrite (Hid _ _ Hrefs). unfold field, data. by simplify_map_eq.
    + rewrite (Hdel _ _ Hrefs). unfold data. by simplify_map_eq.
  - cbn [mbind Result_bind]. intros Hpost.
    apply Hstored in Hpost as (H0 & H1 & H2); [by apply Hread| |].
    + unfold data. by simplify_map_eq.
    + unfold data. by simplify_map_eq.
Qed.

Lemma created_trip_is_readable_witness :
  exists trip trips',
    post_trips Scenario.attachRefs Scenario.trips Scenario.driver_ravi Scenario.create_body
      Scenario.trip3 0 = (respond 201 (BTrip (Scenario.trip3, trip)), trips')
    /\ get_trip trips' Scenario.driver_ravi Scenario.trip3 ∅
       = (respond 200 (BTrip (Scenario.trip3, trip)), trips').
Proof.
  eexists _, _. split; [reflexivity|].
  eapply (created_trip_is_readable Scenario.attachRefs Scenario.naturalOrder
            Scenario.trips _ Scenario.driver_ravi Scenario.create_body Scenario.trip3 0
            _ ∅ (fun _ rows => reflexivity rows)); try reflexivity.
  intros p p' k Hk. apply attachRefs_keeps.
  apply elem_of_cons in Hk as [-> | ->%list_elem_of_singleton];
    apply (bool_decide_unpack _); vm_compute; exact I.
Defined.

(** X16.  A create does not strip the lifecycle fields of the payload: a
    driver who sends [isDriverDeleted] true, and no vehicle, under a free id
    gets 201 for a trip that is stored as deleted, that the same driver is
    then answered 404 for, and that is in no listing. *)
Theorem driver_can_create_hidden_trip (attachRefs : Obj -> Result Obj)
    (sortRows : string -> Coll -> Coll) (trips : Coll) (user viewer : User)
    (reqBody : Obj) (newId : string) (now : Z) (query : Query) :
  (forall sort rows, sortRows sort rows ≡ₚ rows) ->
  role user = "driver" ->
  reqBody !! "isDriverDeleted" = Some (JS.VBool true) ->
  JS.truthy (field reqBody "vehicleId") = false ->
  findById trips newId = None ->
  exists trip,
    post_trips attachRefs trips user reqBody newId now
    = (respond 201 (BTrip (newId, trip)), trips ++ [(newId, trip)])
    /\ trip !! "isDriverDeleted" = Some (JS.VBool true)
    /\ get_trip (trips ++ [(newId, trip)]) user newId ∅
       = (respond 404 (BMessage "Trip not found"), trips ++ [(newId, trip)])
    /\ ((newId, trip)
        ∉ rows_of (body (get_trips sortRows (trips ++ [(newId, trip)]) viewer query).1)).
Proof.
  intros Hsort Hrole Hdel Hvehicle Hfree.
  assert (Hadmin : is_role user "admin" = false).
  { apply is_role_false. rewrite Hrole. discriminate. }
  unfold post_trips. rewrite Hadmin, (is_role_true _ _ Hrole). cbn [mbind Result_bind].
  set (data := <["driverId" := JS.VStr (id user)]>
                 (<["createdBy" := JS.VStr (id user)]>
                    (<["createdByRole" := JS.VStr (role user)]> reqBody))).
  replace (field data "vehicleId") with (field reqBody "vehicleId")
    by (unfold field, data; by simplify_map_eq).
  rewrite Hvehicle. cbn [mbind Result_bind]. unfold save_new, new_Trip. cbn [fst].
  rewrite Hfree. cbn [mbind Result_bind].
  eexists. split; [reflexivity|].
  assert (Hflag : (data ∪ ({[ "isDriverDeleted" := JS.VBool false;
                              "createdAt" := JS.VNum (JS.ofZ now) ]} : Obj))
                  !! "isDriverDeleted" = Some (JS.VBool true)).
  { apply lookup_union_Some_l. unfold data. by simplify_map_eq. }
  assert (Hown : (data ∪ ({[ "isDriverDeleted" := JS.VBool false;
                             "createdAt" := JS.VNum (JS.ofZ now) ]} : Obj))
                 !! "driverId" = Some (JS.VStr (id user))).
  { apply lookup_union_Some_l. unfold data. by simplify_map_eq. }
  split; [done|]. split.
  - unfold get_trip, not_owner, field, query_true.
    rewrite (findById_app_new _ _ _ Hfree), (is_role_true _ _ Hrole), Hflag, Hown.
    cbn [JS.String JS.truthy]. by rewrite String.eqb_refl.
  - unfold get_trips. cbn [fst body respond rows_of]. rewrite Hsort.
    intros [_ Hmatch]%list_elem_of_In%List.filter_In.
    by rewrite trip_match_deleted in Hmatch.
Qed.

Lemma driver_can_create_hidden_trip_witness :
  exists trip,
    post_trips Scenario.attachRefs Scenario.trips Scenario.driver_ravi
      {[ "isDriverDeleted" := JS.VBool true ]} Scenario.trip3 0
    = (respond 201 (BTrip (Scenario.trip3, trip)),
       Scenario.trips ++ [(Scenario.trip3, trip)])
    /\ get_trip (Scenario.trips ++ [(Scenario.trip3, trip)]) Scenario.driver_ravi
         Scenario.trip3 ∅
       = (respond 404 (BMessage "Trip not found"),
          Scenario.trips ++ [(Scenario.trip3, trip)]).
Proof.
  destruct (driver_can_create_hidden_trip Scenario.attachRefs Scenario.naturalOrder
              Scenario.trips Scenario.driver_ravi Scenario.admin
              {[ "isDriverDeleted" := JS.VBool true ]} Scenario.trip3 0 ∅
              (fun _ rows => reflexivity rows))
    as (trip & Hpost & _ & Hget & _).
  - reflexivity.
  - reflexivity.
  - reflexivity.
  - reflexivity.
  - exists trip. split; assumption.
Defined.

(** ** The message link *)

(** X17.  The handler of the message link answers 200 exactly when the trip
    exists, [sendTo] is [customer] or [driver], and the number of that party
    is a string that is not empty. *)
Theorem whatsapp_link_conditions (trips : Coll) (tid : string) (query : Query) :
  Whatsapp.status (Whatsapp.get_whatsapp trips tid query) = 200
  <-> exists trip s,
        findById trips tid = Some trip
        /\ s <> ""%string
        /\ ((query !! "sendTo" = Some "customer"%string
             /\ field trip "customerNumber" = JS.VStr s)
            \/ (query !! "sendTo" = Some "driver"%string
                /\ field trip "driverNumber" = JS.VStr s)).
Proof.
  assert (Hphone : forall v msg,
            (exists phone, Whatsapp.phone_of v msg = inr phone)
            <-> exists s, s <> ""%string /\ v = JS.VStr s).
  { intros v msg. unfold Whatsapp.phone_of. split.
    - intros [phone Hp]. destruct (JS.truthy v) eqn:Hv; cbn [negb] in Hp; [|discriminate].
      destruct v as [| |b|n|s]; try discriminate.
      exists s. split; [|done]. intros ->. discriminate Hv.
    - intros (s & Hs & ->). simpl.
      rewrite (proj2 (String.eqb_neq s "")) by done. eauto. }
  assert (Hstatus : forall v msg,
            match Whatsapp.phone_of v msg with
            | inl answer => Whatsapp.status answer <> 200
            | inr phone => True
            end).
  { intros v msg. unfold Whatsapp.phone_of.
    destruct (JS.truthy v); [destruct v|]; simpl; done. }
  unfold Whatsapp.get_whatsapp.
  destruct (findById trips tid) as [trip|] eqn:Hfind.
  2:{ split; [discriminate|]. by intros (? & ? & ? & _). }
  cbv zeta.
  destruct (bool_decide_reflect (query !! "sendTo" = Some "customer"%string)) as [Hc | Hc].
  - pose proof (Hphone (field trip "customerNumber") "Customer number not available"%string)
      as Hiff.
    pose proof (Hstatus (field trip "customerNumber")
                  "Customer number not available"%string) as Hst.
    destruct (Whatsapp.phone_of (field trip "customerNumber")
                "Customer number not available") as [answer | phone].
    + split; [done|]. intros (t & s & [= <-] & Hs & [[_ Hv] | [Hd _]]).
      * destruct (proj2 Hiff) as [? ?]; [eauto | discriminate].
      * rewrite Hc in Hd. discriminate.
    + split; [|done]. intros _. destruct (proj1 Hiff) as (s & Hs & Hv); [eauto|].
      exists trip, s. eauto.
  - destruct (bool_decide_reflect (query !! "sendTo" = Some "driver"%string)) as [Hd | Hd].
    + pose proof (Hphone (field trip "driverNumber") "Driver number not available"%string)
        as Hiff.
      pose proof (Hstatus (field trip "driverNumber")
                    "Driver number not available"%string) as Hst.
      destruct (Whatsapp.phone_of (field trip "driverNumber")
                  "Driver number not available") as [answer | phone].
      * split; [done|]. intros (t & s & [= <-] & Hs & [[Hc' _] | [_ Hv]]); [done|].
        destruct (proj2 Hiff) as [? ?]; [eauto | discriminate].
      * split; [|done]. intros _. destruct (proj1 Hiff) as (s & Hs & Hv); [eauto|].
        exists trip, s. eauto.
    + split; [discriminate|]. by intros (t & s & _ & _ & [[? _] | [? _]]).
Qed.








Lemma whatsapp_link_conditions_witness :
  Whatsapp.status
    (Whatsapp.get_whatsapp
       [(Scenario.trip1, {[ "driverNumber" := JS.VStr "9000000002" ]} : Obj)]
       Scenario.trip1 {[ "sendTo" := "driver"%string ]}) = 200.
Proof.
  apply (whatsapp_link_conditions
           [(Scenario.trip1, {[ "driverNumber" := JS.VStr "9000000002" ]} : Obj)]
           Scenario.trip1 {[ "sendTo" := "driver"%string ]}).
  exists {[ "driverNumber" := JS.VStr "9000000002" ]}, "9000000002"%string.
  split; [reflexivity|]. split; [discriminate|]. right. split; reflexivity.
Defined.

(** ** The second copy of the router *)




Lemma add_0_0_same (a : JS.Num) : JS.same (JS.add (JS.add a (JS.ofZ 0)) (JS.ofZ 0)) a.
Proof. destruct a as [[]|[]| |[] m e]; (by left) || (by right). Qed.

Lemma copy2_fold (l : Coll) (acc1 : Totals) (acc2 : Copy2.Stats) :
  totalTripAmount' acc1 = Copy2.totalTripAmount acc2 ->
  totalExpenses' acc1 = Copy2.totalExpenses acc2 ->
  totalTripAmount' (fold_left step l acc1)
  = Copy2.totalTripAmount (fold_left Copy2.step l acc2)
  /\ totalExpenses' (fold_left step l acc1)
     = Copy2.totalExpenses (fold_left Copy2.step l acc2)
  /\ Copy2.totalTrips (fold_left Copy2.step l acc2) = Copy2.totalTrips acc2.
Proof.
  revert acc1 acc2. induction l as [|d l IH]; intros acc1 acc2 H1 H2; [done|].
  cbn [fold_left]. destruct (IH (step acc1 d) (Copy2.step acc2 d)) as (Ha & He & Hn).
  - cbn. by rewrite H1.
  - cbn. by rewrite H2.
  - by rewrite Ha, He, Hn.
Qed.

(** X20.  Without maintenance and ad records the two copies of the router
    give the same [totalTrips], [totalTripAmount] and [totalExpenses] for
    the same caller and collection; the expenses, to which the first copy
    adds the two empty sums, are the same up to the sign of a zero. *)
Theorem copy2_stats_agree (trips : Coll) (user : User) :
  exists s,
    (get_stats trips [] [] user).1 = respond 200 (BStats s)
    /\ (Copy2.get_stats trips user).1 = 200
    /\ totalTrips s = Copy2.totalTrips (Copy2.get_stats trips user).2
    /\ totalTripAmount s = Copy2.totalTripAmount (Copy2.get_stats trips user).2
    /\ JS.same (totalExpenses s) (Copy2.totalExpenses (Copy2.get_stats trips user).2).
Proof.
  eexists. split; [reflexivity|]. split; [reflexivity|].
  unfold computeStats, Copy2.get_stats. cbn [totalTrips totalTripAmount totalExpenses snd].
  destruct (copy2_fold (List.filter (trip_match user) trips)
              {| totalTripAmount' := JS.ofZ 0; totalExpenses' := JS.ofZ 0;
                 totalProfit' := JS.ofZ 0 |}
              {| Copy2.totalTrips :=
                   Z.of_nat (length (List.filter (trip_match user) trips));
                 Copy2.totalTripAmount := JS.ofZ 0; Copy2.totalExpenses := JS.ofZ 0;
                 Copy2.totalProfit := JS.ofZ 0 |} eq_refl eq_refl) as (Ha & He & Hn).
  rewrite Hn, <- Ha, <- He. cbn [sumOf fold_left Copy2.totalTrips].
  split; [done|]. split; [done|]. apply add_0_0_same.
Qed.

(** ** The matches of the digit pattern *)

Lemma no_run_no_digit (b : bool) (s : list ascii) :
  FuelPolicy.maximal_runs b s = [] ->
  b = false -> Forall (fun c => JS.is_digit c = false) s.
Proof.
  revert b. induction s as [|c s IH]; intros b Hruns Hb; [constructor|].
  cbn [FuelPolicy.maximal_runs] in Hruns. subst b.
  destruct (JS.is_digit c) eqn:Hc; [discriminate Hruns|].
  constructor; [done|]. by apply (IH false).
Qed.

Lemma no_digit_no_run (s : list ascii) :
  Forall (fun c => JS.is_digit c = false) s -> FuelPolicy.maximal_runs false s = [].
Proof.
  induction 1 as [|c s Hc _ IH]; [done|].
  cbn [FuelPolicy.maximal_runs]. by rewrite Hc, IH.
Qed.

(** X21.  The matches of [/\d+/g] in a text are its maximal runs of digits:
    the non-empty stretches of digits with no digit right before and no
    digit right after.  The result is [null] exactly when the text has no
    digit. *)
Theorem matches_are_maximal_digit_runs (s : string) :
  (forall r : list ascii,
     r ∈ JS.scan (JS.chars s)
     <-> exists pre post,
           JS.chars s = pre ++ r ++ post /\ r <> [] /\ all_digits r
           /\ not_after_digit false pre /\ not_before_digit post)
  /\ (JS.match_digits s = None
      <-> Forall (fun c => JS.is_digit c = false) (JS.chars s))
  /\ (forall ms, JS.match_digits s = Some ms ->
        ms = map string_of_list_ascii (JS.scan (JS.chars s)) /\ ms <> []).
Proof.
  destruct (scan_maximal_runs (JS.chars s)) as [Hscan _]. split; [|split].
  - intros r. rewrite Hscan. apply maximal_runs_are_maximal.
  - unfold JS.match_digits. rewrite Hscan. split.
    + destruct (FuelPolicy.maximal_runs false (JS.chars s)) eqn:Hruns; [|discriminate].
      intros _. by apply (no_run_no_digit false).
    + intros Hnone. by rewrite no_digit_no_run.
  - intros ms. unfold JS.match_digits.
    destruct (JS.scan (JS.chars s)) as [|m rest]; [discriminate|].
    intros [= <-]. done.
Qed.

Lemma matches_are_maximal_digit_runs_witness :
  JS.chars "50" ∈ JS.scan (JS.chars "1 x 50")
  /\ JS.match_digits "no fuel" = None.
Proof.
  destruct (matches_are_maximal_digit_runs "1 x 50") as (Hruns & _).
  destruct (matches_are_maximal_digit_runs "no fuel") as (_ & Hnone & _).
  split.
  - apply Hruns. exists (JS.chars "1 x "), []. repeat split; try done.
    repeat constructor.
  - apply Hnone. repeat constructor.
Defined.
